(** * The dexo swarm coordinator ([exo/autogen/swarm_coordinator.py])

    A shallow embedding of [SwarmCoordinator] and of the three data classes
    it coordinates, followed by the properties of its operations.

    Conventions of the embedding.
    - A Python [float] field holds a finite number (descriptors arrive
      validated); finite floats are rationals and [>=], [<] and [==] on them
      agree with the rational order, so such a field is a [Q] compared with
      [Qle_bool], [Qeq_bool] and [Qcompare].  An [int] field is a [Z].
    - A Python [dict] keeps its keys unique and iterates in insertion
      order; the order decides which of several equally spacious nodes is
      chosen, so a registry is an association list ([PyDict]).
    - A method that mutates [self] and returns [r] becomes a function from
      the coordinator to the pair of the new coordinator and [r].  The
      registries hold references to the descriptors; every descriptor sits
      under one key of one registry, so mutating the object found under a
      key is writing the new value under that key.
    - Calls to the logger change no state and are left out of the pure
      operations; the monitoring loop, which is about what is emitted and
      when, is an interaction tree over log and sleep events. *)

From ITree Require Import ITree ITreeFacts Props.Leaf.
From Stdlib Require Import List String ZArith QArith Bool Lia Permutation Sorted.
Import ListNotations.
Local Open Scope string_scope.
Local Open Scope list_scope.
Local Open Scope Z_scope.

(* ===================================================================== *)
(** * Python dictionaries with string keys *)
(* ===================================================================== *)

Module PyDict.
Section Defs.
Context {V : Type}.

Definition t : Type := list (string * V).

Definition empty : t := [].

(** [d.get(k)] *)
Fixpoint get (d : t) (k : string) : option V :=
  match d with
  | [] => None
  | (k', v) :: d' => if String.eqb k k' then Some v else get d' k
  end.

(** [k in d] *)
Definition contains (d : t) (k : string) : bool :=
  match get d k with Some _ => true | None => false end.

(** [d[k] = v]: a present key keeps its place, a new key goes last. *)
Fixpoint set (d : t) (k : string) (v : V) : t :=
  match d with
  | [] => [(k, v)]
  | (k', v') :: d' =>
      if String.eqb k k' then (k', v) :: d' else (k', v') :: set d' k v
  end.

(** [del d[k]] (the callers test [k in d] first). *)
Fixpoint del (d : t) (k : string) : t :=
  match d with
  | [] => []
  | (k', v') :: d' =>
      if String.eqb k k' then d' else (k', v') :: del d' k
  end.

Definition items (d : t) : list (string * V) := d.
Definition keys (d : t) : list string := map fst d.
Definition values (d : t) : list V := map snd d.
Definition len (d : t) : nat := List.length d.

(** The keys of a dictionary are pairwise distinct. *)
Definition wf (d : t) : Prop := NoDup (keys d).
End Defs.
Arguments t : clear implicits.
End PyDict.

(* ===================================================================== *)
(** * Data model *)
(* ===================================================================== *)

Module ResourceThreshold.
Record t : Type := mk {
  min_memory_gb : Q;
  min_cpu_cores : Z;
  min_gpu_memory_gb : Q;
  min_network_bandwidth_mbps : Q
}.

(** The field defaults of the class. *)
Definition default : t := mk 4 2 0 10.
End ResourceThreshold.

Module SwarmNode.
Record t : Type := mk {
  node_id : string;
  available_memory_gb : Q;
  cpu_cores : Z;
  gpu_memory_gb : Q;
  network_bandwidth_mbps : Q;
  status : string;               (* idle, busy, learning, error *)
  capabilities : list string
}.

(** [node.status = s] *)
Definition set_status (n : t) (s : string) : t :=
  mk (node_id n) (available_memory_gb n) (cpu_cores n) (gpu_memory_gb n)
     (network_bandwidth_mbps n) s (capabilities n).
End SwarmNode.

Module LearningTask.
Record t : Type := mk {
  task_id : string;
  task_type : string;            (* training, fine-tuning, inference, evaluation *)
  priority : Z;
  required_resources : ResourceThreshold.t;
  assigned_nodes : list string;
  status : string                (* pending, running, completed, failed *)
}.

(** [task.assigned_nodes = l; task.status = s] *)
Definition set_assignment (k : t) (l : list string) (s : string) : t :=
  mk (task_id k) (task_type k) (priority k) (required_resources k) l s.
End LearningTask.

Record SwarmCoordinator : Type := mkCoordinator {
  resource_threshold : ResourceThreshold.t;
  nodes : PyDict.t SwarmNode.t;
  tasks : PyDict.t LearningTask.t
}.

(** [SwarmCoordinator(resource_threshold=thr)]: both registries empty. *)
Definition new_coordinator (thr : ResourceThreshold.t) : SwarmCoordinator :=
  mkCoordinator thr PyDict.empty PyDict.empty.

(* ===================================================================== *)
(** * Admission *)
(* ===================================================================== *)

(** [a >= b] on floats and on ints. *)
Definition float_ge (a b : Q) : bool := Qle_bool b a.
Definition int_ge (a b : Z) : bool := (b <=? a)%Z.

(** The four comparisons shared by [_meets_threshold] and
    [_node_suitable_for_task]. *)
Definition satisfies (node : SwarmNode.t) (r : ResourceThreshold.t) : bool :=
  float_ge (SwarmNode.available_memory_gb node) (ResourceThreshold.min_memory_gb r)
  && int_ge (SwarmNode.cpu_cores node) (ResourceThreshold.min_cpu_cores r)
  && float_ge (SwarmNode.gpu_memory_gb node) (ResourceThreshold.min_gpu_memory_gb r)
  && float_ge (SwarmNode.network_bandwidth_mbps node)
              (ResourceThreshold.min_network_bandwidth_mbps r).

Definition _meets_threshold (self : SwarmCoordinator) (node : SwarmNode.t) : bool :=
  satisfies node (resource_threshold self).

Definition _node_suitable_for_task (node : SwarmNode.t) (task : LearningTask.t) : bool :=
  satisfies node (LearningTask.required_resources task).

Definition register_node (self : SwarmCoordinator) (node : SwarmNode.t)
  : SwarmCoordinator * bool :=
  if negb (_meets_threshold self node) then (self, false)
  else
    (mkCoordinator (resource_threshold self)
                   (PyDict.set (nodes self) (SwarmNode.node_id node) node)
                   (tasks self),
     true).

Definition unregister_node (self : SwarmCoordinator) (node_id : string)
  : SwarmCoordinator * bool :=
  if PyDict.contains (nodes self) node_id then
    (mkCoordinator (resource_threshold self)
                   (PyDict.del (nodes self) node_id)
                   (tasks self),
     true)
  else (self, false).

(* ===================================================================== *)
(** * Matching *)
(* ===================================================================== *)

(** [a < b] on floats. *)
Definition float_lt (a b : Q) : bool :=
  match Qcompare a b with Lt => true | _ => false end.

(** [a < b] on the tuples [(float, int)] that the sort uses as keys: the
    first components decide unless they are equal. *)
Definition tuple_lt (a b : Q * Z) : bool :=
  if Qeq_bool (fst a) (fst b) then (snd a <? snd b)%Z
  else float_lt (fst a) (fst b).

(** [lambda n: (n.available_memory_gb, n.cpu_cores)] *)
Definition sort_key (n : SwarmNode.t) : Q * Z :=
  (SwarmNode.available_memory_gb n, SwarmNode.cpu_cores n).

Section Sort.
Context {A : Type} (key : A -> Q * Z).

(** [l.sort(key=key, reverse=True)]: the stable sort into descending
    order; elements with equal keys keep their order. *)
Fixpoint insert_desc (x : A) (l : list A) : list A :=
  match l with
  | [] => [x]
  | y :: l' =>
      if tuple_lt (key x) (key y) then y :: insert_desc x l' else x :: l
  end.

Definition sort_desc (l : list A) : list A := fold_right insert_desc [] l.
End Sort.

(** The comprehension of [_assign_nodes_to_task]: the idle nodes that
    satisfy the task, in registry order, each with the key it is stored
    under. *)
Definition suitable_nodes (self : SwarmCoordinator) (task : LearningTask.t)
  : list (string * SwarmNode.t) :=
  filter (fun kn => String.eqb (SwarmNode.status (snd kn)) "idle"
                    && _node_suitable_for_task (snd kn) task)
         (PyDict.items (nodes self)).

Definition _assign_nodes_to_task (self : SwarmCoordinator) (task_id : string)
  : SwarmCoordinator * bool :=
  match PyDict.get (tasks self) task_id with
  | None => (self, false)
  | Some task =>
      match suitable_nodes self task with
      | [] => (self, false)
      | _ :: _ =>
          match sort_desc (fun kn => sort_key (snd kn)) (suitable_nodes self task) with
          | [] => (self, false)        (* not reached: sorting keeps the length *)
          | (k, assigned_node) :: _ =>
              (mkCoordinator
                 (resource_threshold self)
                 (PyDict.set (nodes self) k (SwarmNode.set_status assigned_node "busy"))
                 (PyDict.set (tasks self) task_id
                    (LearningTask.set_assignment task
                       [SwarmNode.node_id assigned_node] "assigned")),
               true)
          end
      end
  end.

(** [self.tasks[task.task_id] = task], the first statement of
    [submit_learning_task]. *)
Definition store_task (self : SwarmCoordinator) (task : LearningTask.t)
  : SwarmCoordinator :=
  mkCoordinator (resource_threshold self) (nodes self)
                (PyDict.set (tasks self) (LearningTask.task_id task) task).

Definition submit_learning_task (self : SwarmCoordinator) (task : LearningTask.t)
  : SwarmCoordinator * string :=
  let self1 := store_task self task in
  (fst (_assign_nodes_to_task self1 (LearningTask.task_id task)),
   LearningTask.task_id task).

(* ===================================================================== *)
(** * Governance *)
(* ===================================================================== *)

Definition set_resource_threshold (self : SwarmCoordinator)
           (threshold : ResourceThreshold.t) : SwarmCoordinator :=
  let self1 := mkCoordinator threshold (nodes self) (tasks self) in
  let nodes_to_remove :=
    map fst (filter (fun kn => negb (_meets_threshold self1 (snd kn)))
                    (PyDict.items (nodes self1))) in
  fold_left (fun c node_id => fst (unregister_node c node_id)) nodes_to_remove self1.

(* ===================================================================== *)
(** * Status snapshot *)
(* ===================================================================== *)

(** The values a snapshot holds. *)
Inductive pynum : Type :=
| PyInt (z : Z)
| PyFloat (q : Q).

Inductive pyval : Type :=
| PyNum (x : pynum)
| PyMap (d : list (string * pynum)).

(** [sum(1 for x in l if p(x))] *)
Definition sum_ones {A : Type} (p : A -> bool) (l : list A) : Z :=
  fold_left Z.add (map (fun _ => 1) (filter p l)) 0.

(** [threshold.model_dump()] *)
Definition model_dump (r : ResourceThreshold.t) : PyDict.t pynum :=
  [ ("min_memory_gb", PyFloat (ResourceThreshold.min_memory_gb r));
    ("min_cpu_cores", PyInt (ResourceThreshold.min_cpu_cores r));
    ("min_gpu_memory_gb", PyFloat (ResourceThreshold.min_gpu_memory_gb r));
    ("min_network_bandwidth_mbps",
     PyFloat (ResourceThreshold.min_network_bandwidth_mbps r)) ].

Definition node_status_is (s : string) (n : SwarmNode.t) : bool :=
  String.eqb (SwarmNode.status n) s.
Definition task_status_is (s : string) (k : LearningTask.t) : bool :=
  String.eqb (LearningTask.status k) s.

Definition get_swarm_status (self : SwarmCoordinator) : PyDict.t pyval :=
  let total_nodes := Z.of_nat (PyDict.len (nodes self)) in
  let idle_nodes := sum_ones (node_status_is "idle") (PyDict.values (nodes self)) in
  let busy_nodes := sum_ones (node_status_is "busy") (PyDict.values (nodes self)) in
  let learning_nodes :=
    sum_ones (node_status_is "learning") (PyDict.values (nodes self)) in
  let pending_tasks :=
    sum_ones (task_status_is "pending") (PyDict.values (tasks self)) in
  let running_tasks :=
    sum_ones (task_status_is "running") (PyDict.values (tasks self)) in
  let completed_tasks :=
    sum_ones (task_status_is "completed") (PyDict.values (tasks self)) in
  [ ("total_nodes", PyNum (PyInt total_nodes));
    ("idle_nodes", PyNum (PyInt idle_nodes));
    ("busy_nodes", PyNum (PyInt busy_nodes));
    ("learning_nodes", PyNum (PyInt learning_nodes));
    ("pending_tasks", PyNum (PyInt pending_tasks));
    ("running_tasks", PyNum (PyInt running_tasks));
    ("completed_tasks", PyNum (PyInt completed_tasks));
    ("resource_threshold", PyMap (model_dump (resource_threshold self))) ].

(* ===================================================================== *)
(** * The scenarios of the test file *)
(* ===================================================================== *)

Definition valid_node : SwarmNode.t :=
  SwarmNode.mk "node-1" 16 8 8 1000 "idle" [].

Definition invalid_node : SwarmNode.t :=
  SwarmNode.mk "node-2" 1 1 0 5 "idle" [].

Definition task_1 : LearningTask.t :=
  LearningTask.mk "task-1" "training" 1 (ResourceThreshold.mk 8 4 0 10) [] "pending".

Definition coordinator : SwarmCoordinator := new_coordinator ResourceThreshold.default.

(* ===================================================================== *)
(** * Vocabulary of the specification *)
(* ===================================================================== *)

(** Field-wise [>=] of a node's four capacity fields against a threshold. *)
Definition capacity_ge (n : SwarmNode.t) (r : ResourceThreshold.t) : Prop :=
  (ResourceThreshold.min_memory_gb r <= SwarmNode.available_memory_gb n)%Q
  /\ (ResourceThreshold.min_cpu_cores r <= SwarmNode.cpu_cores n)%Z
  /\ (ResourceThreshold.min_gpu_memory_gb r <= SwarmNode.gpu_memory_gb n)%Q
  /\ (ResourceThreshold.min_network_bandwidth_mbps r
      <= SwarmNode.network_bandwidth_mbps n)%Q.

(** The candidate set of a task: the registered nodes that are idle and
    whose capacity covers the task's required resources. *)
Definition candidate (self : SwarmCoordinator) (task : LearningTask.t)
           (k : string) (n : SwarmNode.t) : Prop :=
  In (k, n) (PyDict.items (nodes self))
  /\ SwarmNode.status n = "idle"
  /\ capacity_ge n (LearningTask.required_resources task).

(** Lexicographic order on [(memory, cores)], memory first. *)
Definition lex_le (a b : Q * Z) : Prop :=
  (fst a < fst b)%Q \/ ((fst a == fst b)%Q /\ (snd a <= snd b)%Z).

(** The eviction loop of [set_resource_threshold]: unregistering a list of
    keys one after the other. *)
Definition unregister_all (self : SwarmCoordinator) (ks : list string) : SwarmCoordinator :=
  fold_left (fun c node_id => fst (unregister_node c node_id)) ks self.


(** The two ways in which [_assign_nodes_to_task] can end. *)
Inductive assign_outcome (self : SwarmCoordinator) (task_id : string)
  : SwarmCoordinator * bool -> Prop :=
| assign_unknown :
    PyDict.get (tasks self) task_id = None ->
    assign_outcome self task_id (self, false)
| assign_no_candidate task :
    PyDict.get (tasks self) task_id = Some task ->
    suitable_nodes self task = [] ->
    assign_outcome self task_id (self, false)
| assign_chosen task k n rest :
    PyDict.get (tasks self) task_id = Some task ->
    sort_desc (fun kn => sort_key (snd kn)) (suitable_nodes self task) = (k, n) :: rest ->
    assign_outcome self task_id
      (mkCoordinator
         (resource_threshold self)
         (PyDict.set (nodes self) k (SwarmNode.set_status n "busy"))
         (PyDict.set (tasks self) task_id
            (LearningTask.set_assignment task [SwarmNode.node_id n] "assigned")),
       true).


(** The number of elements of [l] that satisfy [p]. *)
Definition count_where {A : Type} (p : A -> bool) (l : list A) : Z :=
  Z.of_nat (List.length (filter p l)).

(** Every registered node carries one of the four documented statuses. *)
Definition statuses_valid (self : SwarmCoordinator) : Prop :=
  forall n, In n (PyDict.values (nodes self)) ->
            SwarmNode.status n = "idle" \/ SwarmNode.status n = "busy"
            \/ SwarmNode.status n = "learning" \/ SwarmNode.status n = "error".

(* ===================================================================== *)
(** * The coordinator as a transition system *)
(* ===================================================================== *)

(** The public operations, with their arguments. *)
Inductive operation : Type :=
| RegisterNode (node : SwarmNode.t)
| UnregisterNode (node_id : string)
| SubmitTask (task : LearningTask.t)
| AssignNodesToTask (task_id : string)
| SetResourceThreshold (threshold : ResourceThreshold.t).

Definition apply_operation (self : SwarmCoordinator) (op : operation) : SwarmCoordinator :=
  match op with
  | RegisterNode node => fst (register_node self node)
  | UnregisterNode node_id => fst (unregister_node self node_id)
  | SubmitTask task => fst (submit_learning_task self task)
  | AssignNodesToTask task_id => fst (_assign_nodes_to_task self task_id)
  | SetResourceThreshold threshold => set_resource_threshold self threshold
  end.

(** The states reached from an empty coordinator by public operations. *)
Inductive reachable : SwarmCoordinator -> Prop :=
| reachable_new thr : reachable (new_coordinator thr)
| reachable_step self op :
    reachable self -> reachable (apply_operation self op).

(** The statuses of a node that is taken. *)
Definition occupied (s : string) : Prop :=
  s = "busy" \/ s = "learning" \/ s = "error".

(** Some stored task lists [node_id] among its assigned nodes. *)
Definition referenced (self : SwarmCoordinator) (node_id : string) : Prop :=
  exists task_id task,
    In (task_id, task) (PyDict.items (tasks self))
    /\ In node_id (LearningTask.assigned_nodes task).



(** Every node is stored under its own id. *)
Definition keys_consistent (self : SwarmCoordinator) : Prop :=
  forall k n, In (k, n) (PyDict.items (nodes self)) -> SwarmNode.node_id n = k.

(** Operations that leave the booking discipline to the coordinator: a
    task is submitted without assigned nodes, and a descriptor registered
    for a node id that some task lists does not declare that node free. *)
Definition disciplined (self : SwarmCoordinator) (op : operation) : Prop :=
  match op with
  | RegisterNode node =>
      referenced self (SwarmNode.node_id node) -> occupied (SwarmNode.status node)
  | SubmitTask task => LearningTask.assigned_nodes task = []
  | _ => True
  end.



(* ===================================================================== *)
(** * The monitoring loop *)
(* ===================================================================== *)

(** [run_continuous_learning] never returns and talks to the outside: it
    sleeps and it logs.  Those calls are the events of an interaction
    tree.  The work between them, scanning the registries and matching, is
    the code above, which raises nothing on well-typed descriptors.  What
    the [try] guards against is that work failing unexpectedly; the
    function [raises] below stands for that: it tells, for each scanning
    step and the state in which it starts, whether the step raises, and
    with what exception.  Such a step raises before it mutates anything
    (the assignments at the end of [_assign_nodes_to_task] follow all the
    comparisons).  Cancellation of the task is no [Exception] and is not
    modelled. *)

Module Loop.
Import ITreeNotations.
Local Open Scope itree_scope.

(** An exception, as the text that [{e}] formats to. *)
Definition exn : Type := string.

(** The steps of one iteration that scan the registries. *)
Variant site : Type :=
| ScanPending                     (* the comprehension over [self.tasks] *)
| Assign (task_id : string)       (* one call of [_assign_nodes_to_task] *)
| Monitor.                        (* the comprehension of [_monitor_tasks] *)

Variant loopE : Type -> Type :=
| Sleep (seconds : Q) : loopE unit                 (* [await asyncio.sleep(s)] *)
| LogInfo (message : string) : loopE unit          (* [logger.info] *)
| LogError (message : string) : loopE unit         (* [logger.error] *)
| LogDebug (task_id : string) (assigned_nodes : list string)
  : loopE unit.                                    (* [logger.debug] of [_monitor_tasks] *)

(** Statements: they run on the coordinator, emit events, and end
    normally with a value or abruptly with an exception; the mutations made
    before an exception stay. *)
Definition M (A : Type) : Type :=
  SwarmCoordinator -> itree loopE (SwarmCoordinator * (exn + A)).

Definition ret {A : Type} (a : A) : M A := fun c => Ret (c, inr a).

Definition bind {A B : Type} (m : M A) (k : A -> M B) : M B :=
  fun c =>
    r <- m c ;;
    match r with
    | (c', inl e) => Ret (c', inl e)
    | (c', inr a) => k a c'
    end.

Definition raise {A : Type} (e : exn) : M A := fun c => Ret (c, inl e).

Definition emit (ev : loopE unit) : M unit :=
  fun c => ITree.trigger ev ;; Ret (c, inr tt).

Definition get_self : M SwarmCoordinator := fun c => Ret (c, inr c).

(** A method of the coordinator, called where it does not raise. *)
Definition call {R : Type} (method : SwarmCoordinator -> SwarmCoordinator * R) : M R :=
  fun c => Ret (fst (method c), inr (snd (method c))).

(** [try: body except Exception as e: handler(e)] *)
Definition try_except {A : Type} (body : M A) (handler : exn -> M A) : M A :=
  fun c =>
    r <- body c ;;
    match r with
    | (c', inl e) => handler e c'
    | (c', inr a) => Ret (c', inr a)
    end.

Notation "'let*' x ':=' m 'in' k" := (bind m (fun x => k))
  (at level 10, x name, m at level 100, k at level 200, only parsing).
Notation "m1 ';;;' m2" := (bind m1 (fun _ => m2))
  (at level 62, right associativity, only parsing).

(** [for x in l: body(x)] *)
Fixpoint for_each {A : Type} (l : list A) (body : A -> M unit) : M unit :=
  match l with
  | [] => ret tt
  | x :: l' => body x ;;; for_each l' body
  end.

Section WithFaults.
Variable raises : site -> SwarmCoordinator -> option exn.

(** A scanning step starts: it raises or it goes on. *)
Definition guard (s : site) : M unit :=
  fun c => match raises s c with
           | Some e => raise e c
           | None => ret tt c
           end.

Definition _monitor_tasks : M unit :=
  guard Monitor ;;;
  let* self := get_self in
  let running_tasks :=
    filter (task_status_is "running") (PyDict.values (tasks self)) in
  for_each running_tasks
    (fun task => emit (LogDebug (LearningTask.task_id task)
                                (LearningTask.assigned_nodes task))).

(** The body of the [try]. *)
Definition try_block : M unit :=
  guard ScanPending ;;;
  let* self := get_self in
  let pending_tasks :=
    filter (task_status_is "pending") (PyDict.values (tasks self)) in
  for_each pending_tasks
    (fun task =>
       guard (Assign (LearningTask.task_id task)) ;;;
       let* _ := call (fun c => _assign_nodes_to_task c (LearningTask.task_id task)) in
       ret tt) ;;;
  _monitor_tasks ;;;
  emit (Sleep 5%Q).

(** The body of the [except]. *)
Definition except_block (e : exn) : M unit :=
  emit (LogError ("Error in continuous learning loop: " ++ e)%string) ;;;
  emit (Sleep 10%Q).

(** One turn of the [while True]. *)
Definition iteration : M unit := try_except try_block except_block.

(** The loop goes on after a turn that ends normally; a turn that ended
    with an exception would end the loop and hand the exception to the
    caller. *)
Definition loop_step (c : SwarmCoordinator)
  : itree loopE (SwarmCoordinator + exn) :=
  r <- iteration c ;;
  match r with
  | (c', inr _) => Ret (inl c')
  | (_, inl e) => Ret (inr e)
  end.

Definition run_continuous_learning (self : SwarmCoordinator) : itree loopE exn :=
  ITree.trigger (LogInfo "Starting continuous learning coordinator") ;;
  ITree.iter loop_step self.

(** ** What the specification says of one turn *)

(** The pending tasks are matched one after the other, up to the first
    step that raises. *)
Fixpoint assign_pending (pending : list LearningTask.t) (c : SwarmCoordinator)
  : SwarmCoordinator * option exn :=
  match pending with
  | [] => (c, None)
  | task :: rest =>
      match raises (Assign (LearningTask.task_id task)) c with
      | Some e => (c, Some e)
      | None =>
          assign_pending rest
            (fst (_assign_nodes_to_task c (LearningTask.task_id task)))
      end
  end.

(** The scanning work of a turn: collect the pending tasks, match them,
    collect the running tasks. *)
Definition scan (c : SwarmCoordinator) : SwarmCoordinator * option exn :=
  match raises ScanPending c with
  | Some e => (c, Some e)
  | None =>
      match assign_pending
              (filter (task_status_is "pending") (PyDict.values (tasks c))) c with
      | (c1, Some e) => (c1, Some e)
      | (c1, None) =>
          match raises Monitor c1 with
          | Some e => (c1, Some e)
          | None => (c1, None)
          end
      end
  end.

(** The diagnostic trace of the running tasks. *)
Fixpoint trace_running (running : list LearningTask.t) : itree loopE unit :=
  match running with
  | [] => Ret tt
  | task :: rest =>
      ITree.trigger (LogDebug (LearningTask.task_id task)
                              (LearningTask.assigned_nodes task)) ;;
      trace_running rest
  end.

(** A turn as the specification describes it: after the scanning work,
    either the trace and the normal sleep of 5, or the error log and the
    backoff sleep of 10; then the next turn. *)
Definition iteration_spec (c : SwarmCoordinator) : itree loopE SwarmCoordinator :=
  match scan c with
  | (c1, None) =>
      trace_running (filter (task_status_is "running") (PyDict.values (tasks c1))) ;;
      ITree.trigger (Sleep 5%Q) ;;
      Ret c1
  | (c1, Some e) =>
      ITree.trigger (LogError ("Error in continuous learning loop: " ++ e)%string) ;;
      ITree.trigger (Sleep 10%Q) ;;
      Ret c1
  end.
(** The loop as the specification describes it: one turn after the
    other, each from the state the turn before left; no turn ends it. *)
Definition turns (self : SwarmCoordinator) : itree loopE exn :=
  ITree.iter (fun c => c' <- iteration_spec c ;; Ret (inl c')) self.
End WithFaults.

(** Calling [_assign_nodes_to_task] on each task of a list. *)
Definition assign_each (l : list LearningTask.t) (c : SwarmCoordinator)
  : SwarmCoordinator :=
  fold_left (fun c task => fst (_assign_nodes_to_task c (LearningTask.task_id task))) l c.

(** Nothing raises. *)
Definition no_fault : site -> SwarmCoordinator -> option exn := fun _ _ => None.

(** The monitoring step raises whenever some task is running. *)
Definition monitor_fault : site -> SwarmCoordinator -> option exn :=
  fun s c =>
    match s with
    | Monitor =>
        match filter (task_status_is "running") (PyDict.values (tasks c)) with
        | [] => None
        | _ :: _ => Some "progress unavailable"
        end
    | _ => None
    end.
End Loop.
(* ===================================================================== *)
(** * Further scenarios *)
(* ===================================================================== *)

Definition busy_node_1 : SwarmNode.t := SwarmNode.set_status valid_node "busy".

Definition assigned_task_1 : LearningTask.t :=
  LearningTask.set_assignment task_1 ["node-1"] "assigned".

(** A coordinator in which [task-1] runs on [node-1]. *)
Definition coordinator_assigned : SwarmCoordinator :=
  mkCoordinator ResourceThreshold.default
                [("node-1", busy_node_1)] [("task-1", assigned_task_1)].

Definition small_node : SwarmNode.t :=
  SwarmNode.mk "node-3" 8 4 0 100 "idle" [].

(** Two idle nodes registered, then [task-1] submitted: it goes to
    [node-1], the more spacious one. *)
Definition coordinator_two_nodes : SwarmCoordinator :=
  fst (submit_learning_task
         (fst (register_node (fst (register_node coordinator valid_node)) small_node))
         task_1).

(** A task that its submitter marks as completed on a node of its own
    choosing. *)
Definition completed_task : LearningTask.t :=
  LearningTask.mk "task-9" "evaluation" 0 (ResourceThreshold.mk 8 4 0 10)
                  ["node-9"] "completed".

Definition coordinator_one_node : SwarmCoordinator :=
  fst (register_node coordinator valid_node).

(** A node that reports itself in error; admission does not look at the
    status. *)
Definition error_node : SwarmNode.t :=
  SwarmNode.mk "node-4" 16 8 0 100 "error" [].

Definition coordinator_error_node : SwarmCoordinator :=
  fst (register_node coordinator error_node).

Definition task_2 : LearningTask.t :=
  LearningTask.mk "task-2" "training" 1 (ResourceThreshold.mk 8 4 0 10) [] "pending".

(** [node-1] registers, [task-1] is assigned to it, and the node reporter
    sends the descriptor of [node-1] again (status idle, as every fresh
    descriptor). *)
Definition coordinator_reregistered : SwarmCoordinator :=
  apply_operation
    (apply_operation
       (apply_operation (new_coordinator ResourceThreshold.default)
                        (RegisterNode valid_node))
       (SubmitTask task_1))
    (RegisterNode valid_node).

(** ... and a second task arrives. *)
Definition coordinator_double_booked : SwarmCoordinator :=
  apply_operation coordinator_reregistered (SubmitTask task_2).

(** The same run without the second registration. *)
Definition coordinator_second_task : SwarmCoordinator :=
  apply_operation
    (apply_operation
       (apply_operation (new_coordinator ResourceThreshold.default)
                        (RegisterNode valid_node))
       (SubmitTask task_1))
    (SubmitTask task_2).

(** [task-1] has been started by the executor; [task-2] waits. *)
Definition coordinator_running : SwarmCoordinator :=
  mkCoordinator ResourceThreshold.default
                [("node-1", busy_node_1)]
                [("task-1", LearningTask.set_assignment task_1 ["node-1"] "running");
                 ("task-2", task_2)].

(* ===================================================================== *)
(** * Further vocabulary: what the registries keep *)
(* ===================================================================== *)

(** Every registered node satisfies the threshold in force. *)
Definition admitted (self : SwarmCoordinator) : Prop :=
  forall k n, In (k, n) (PyDict.items (nodes self)) -> _meets_threshold self n = true.

(** Every task is stored under its own id. *)
Definition task_keys_consistent (self : SwarmCoordinator) : Prop :=
  forall k task, In (k, task) (PyDict.items (tasks self)) -> LearningTask.task_id task = k.

(** Both registries have unique keys, and every descriptor sits under its
    own id. *)
Definition registries_consistent (self : SwarmCoordinator) : Prop :=
  PyDict.wf (nodes self)
  /\ PyDict.wf (tasks self)
  /\ keys_consistent self
  /\ task_keys_consistent self.

(** Field-wise [<=] on thresholds. *)
Definition threshold_le (r1 r2 : ResourceThreshold.t) : Prop :=
  (ResourceThreshold.min_memory_gb r1 <= ResourceThreshold.min_memory_gb r2)%Q
  /\ (ResourceThreshold.min_cpu_cores r1 <= ResourceThreshold.min_cpu_cores r2)%Z
  /\ (ResourceThreshold.min_gpu_memory_gb r1 <= ResourceThreshold.min_gpu_memory_gb r2)%Q
  /\ (ResourceThreshold.min_network_bandwidth_mbps r1
      <= ResourceThreshold.min_network_bandwidth_mbps r2)%Q.

(** The entry of a snapshot, when it is a count. *)
Definition snapshot_count (snapshot : PyDict.t pyval) (key : string) : option Z :=
  match PyDict.get snapshot key with
  | Some (PyNum (PyInt z)) => Some z
  | _ => None
  end.

(** A task is still waiting and some idle node could take it. *)
Definition matchable (self : SwarmCoordinator) : Prop :=
  exists task_id task k n,
    In (task_id, task) (PyDict.items (tasks self))
    /\ LearningTask.status task = "pending"
    /\ candidate self task k n.

(** The pending tasks, in registry order, as the loop collects them. *)
Definition pending_tasks (self : SwarmCoordinator) : list LearningTask.t :=
  filter (task_status_is "pending") (PyDict.values (tasks self)).

(** A task that asks for less than [task_1]. *)
Definition light_task : LearningTask.t :=
  LearningTask.mk "task-3" "inference" 5 (ResourceThreshold.mk 2 1 0 10) [] "pending".

(** An idle node and two waiting tasks, the second asking for less. *)
Definition coordinator_waiting : SwarmCoordinator :=
  mkCoordinator ResourceThreshold.default
                [("node-1", valid_node)]
                [("task-1", task_1); ("task-3", light_task)].

(** [task-1] is submitted to an empty fleet; [node-1] and [node-3] register
    afterwards. *)
Definition coordinator_late_nodes : SwarmCoordinator :=
  apply_operation
    (apply_operation
       (apply_operation (new_coordinator ResourceThreshold.default)
                        (SubmitTask task_1))
       (RegisterNode valid_node))
    (RegisterNode small_node).

(** [task-3] is submitted to an empty fleet; [node-1] registers afterwards. *)
Definition coordinator_light : SwarmCoordinator :=
  apply_operation
    (apply_operation (new_coordinator ResourceThreshold.default)
                     (SubmitTask light_task))
    (RegisterNode valid_node).

(* ===================================================================== *)
(** * Runs *)
(* ===================================================================== *)



(** The two halves of [disciplined]: tasks are submitted without assigned
    nodes; a descriptor registered for a node id that some task lists does
    not declare that node free. *)
Definition submits_unassigned (self : SwarmCoordinator) (op : operation) : Prop :=
  match op with
  | SubmitTask task => LearningTask.assigned_nodes task = []
  | _ => True
  end.

Definition registers_occupied (self : SwarmCoordinator) (op : operation) : Prop :=
  match op with
  | RegisterNode node =>
      referenced self (SwarmNode.node_id node) -> occupied (SwarmNode.status node)
  | _ => True
  end.





(* ===================================================================== *)
(** * Facts about dictionaries *)
(* ===================================================================== *)

Module PyDictFacts.
Import PyDict.
Section Facts.
Context {V : Type}.
Implicit Types (d : PyDict.t V) (k : string) (v : V).

Lemma get_set_same d k v : get (set d k v) k = Some v.
Proof.
  induction d as [|[k' v'] d IH]; simpl.
  - now rewrite String.eqb_refl.
  - destruct (String.eqb k k') eqn:E; simpl; rewrite E; auto.
Qed.

Lemma get_set_other d k k' v : k' <> k -> get (set d k v) k' = get d k'.
Proof.
  intros Hne. induction d as [|[k0 v0] d IH]; simpl.
  - apply String.eqb_neq in Hne. now rewrite Hne.
  - destruct (String.eqb k k0) eqn:E; simpl; [|now rewrite IH].
    apply String.eqb_eq in E. subst k0.
    apply String.eqb_neq in Hne. now rewrite Hne.
Qed.

Lemma keys_set_present d k v :
  contains d k = true -> keys (set d k v) = keys d.
Proof.
  unfold contains, keys. induction d as [|[k' v'] d IH]; simpl; [discriminate|].
  destruct (String.eqb k k') eqn:E; simpl; intros H; [reflexivity|].
  now rewrite IH.
Qed.

Lemma keys_set_absent d k v :
  contains d k = false -> keys (set d k v) = keys d ++ [k].
Proof.
  unfold contains, keys. induction d as [|[k' v'] d IH]; simpl; [reflexivity|].
  destruct (String.eqb k k') eqn:E; simpl; intros H; [discriminate|].
  now rewrite IH.
Qed.

Lemma contains_In_keys d k : contains d k = true <-> In k (keys d).
Proof.
  unfold contains, keys. induction d as [|[k' v'] d IH]; simpl.
  - split; [discriminate | tauto].
  - destruct (String.eqb k k') eqn:E.
    + apply String.eqb_eq in E. subst. split; auto.
    + apply String.eqb_neq in E. rewrite IH. split; [auto|].
      intros [H|H]; [congruence | exact H].
Qed.

Lemma get_None_keys d k : get d k = None <-> ~ In k (keys d).
Proof.
  rewrite <- contains_In_keys. unfold contains.
  destruct (get d k); split; intros H; congruence.
Qed.

Lemma len_set_present d k v :
  contains d k = true -> len (set d k v) = len d.
Proof.
  intros H. unfold len.
  rewrite <- (length_map fst (set d k v)), <- (length_map fst d).
  change (List.length (keys (set d k v)) = List.length (keys d)).
  now rewrite keys_set_present.
Qed.

Lemma wf_set d k v : wf d -> wf (set d k v).
Proof.
  unfold wf. intros H. destruct (contains d k) eqn:E.
  - now rewrite keys_set_present.
  - rewrite keys_set_absent by exact E.
    apply NoDup_app; [exact H | repeat constructor; simpl; tauto |].
    intros x Hx [<-|[]].
    apply contains_In_keys in Hx. congruence.
Qed.

Lemma In_get d k v : wf d -> In (k, v) d -> get d k = Some v.
Proof.
  unfold wf, keys. induction d as [|[k' v'] d IH]; simpl; [tauto|].
  intros Hnd [Heq|Hin]; inversion Hnd as [|? ? Hnotin Hnd']; subst.
  - inversion Heq; subst. now rewrite String.eqb_refl.
  - destruct (String.eqb k k') eqn:E; [|auto].
    apply String.eqb_eq in E. subst k'.
    exfalso. apply Hnotin. now apply (in_map fst) in Hin.
Qed.

Lemma get_In d k v : get d k = Some v -> In (k, v) d.
Proof.
  induction d as [|[k' v'] d IH]; simpl; [discriminate|].
  destruct (String.eqb k k') eqn:E; [|auto].
  apply String.eqb_eq in E. subst k'. intros [= ->]. now left.
Qed.

Lemma keys_del_incl d k k' : In k' (keys (del d k)) -> In k' (keys d).
Proof.
  unfold keys. induction d as [|[k0 v0] d IH]; simpl; [tauto|].
  destruct (String.eqb k k0); simpl; [auto|]. intros [H|H]; auto.
Qed.

Lemma wf_del d k : wf d -> wf (del d k).
Proof.
  unfold wf, keys. induction d as [|[k0 v0] d IH]; simpl; [auto|].
  intros Hnd. inversion Hnd as [|? ? Hnotin Hnd']; subst.
  destruct (String.eqb k k0); simpl; [exact Hnd'|].
  constructor; [|auto]. intros Hin. apply Hnotin.
  now apply keys_del_incl in Hin.
Qed.

Lemma get_del_same d k : wf d -> get (del d k) k = None.
Proof.
  unfold wf, keys. induction d as [|[k0 v0] d IH]; simpl; [auto|].
  intros Hnd. inversion Hnd as [|? ? Hnotin Hnd']; subst.
  destruct (String.eqb k k0) eqn:E; simpl; [|rewrite E; auto].
  apply String.eqb_eq in E. subst k0.
  now apply get_None_keys.
Qed.

Lemma get_del_other d k k' : k' <> k -> get (del d k) k' = get d k'.
Proof.
  intros Hne. induction d as [|[k0 v0] d IH]; simpl; [auto|].
  destruct (String.eqb k k0) eqn:E; simpl; [|now rewrite IH].
  apply String.eqb_eq in E. subst k0.
  apply String.eqb_neq in Hne. now rewrite Hne.
Qed.

(** Deleting a key of a well-formed dictionary drops exactly the entries
    under that key and keeps the others in order. *)
Lemma del_filter d k :
  wf d -> del d k = filter (fun kv => negb (String.eqb k (fst kv))) d.
Proof.
  unfold wf, keys. induction d as [|[k0 v0] d IH]; simpl; [auto|].
  intros Hnd. inversion Hnd as [|? ? Hnotin Hnd']; subst.
  destruct (String.eqb k k0) eqn:E; simpl; [|now rewrite IH].
  apply String.eqb_eq in E. subst k0.
  symmetry. apply forallb_filter_id. apply forallb_forall.
  intros [k1 v1] Hin. simpl. apply negb_true_iff, String.eqb_neq.
  intros ->. apply Hnotin. now apply (in_map fst) in Hin.
Qed.
Lemma wf_filter d (p : string * V -> bool) : wf d -> wf (filter p d).
Proof.
  unfold wf, keys. induction d as [|[k v] d IH]; simpl; [constructor|].
  intros Hnd. inversion Hnd as [|? ? Hnotin Hnd']; subst.
  destruct (p (k, v)); simpl; [|auto].
  constructor; [|auto]. intros Hin. apply Hnotin.
  apply in_map_iff in Hin. destruct Hin as (x & <- & Hx).
  apply filter_In in Hx. now apply in_map.
Qed.

Lemma in_set d k v k' v' :
  In (k', v') (set d k v) -> (k' = k /\ v' = v) \/ In (k', v') d.
Proof.
  induction d as [|[k0 v0] d IH]; simpl.
  - intros [[= <- <-]|[]]. now left.
  - destruct (String.eqb k k0) eqn:E; simpl.
    + apply String.eqb_eq in E. subst k0.
      intros [[= <- <-]|H]; [now left | right; now right].
    + intros [H|H]; [right; now left|].
      destruct (IH H) as [?|?]; [now left | right; now right].
Qed.

Lemma in_del d k x : In x (del d k) -> In x d.
Proof.
  induction d as [|[k0 v0] d IH]; simpl; [tauto|].
  destruct (String.eqb k k0); simpl; [now right|].
  intros [H|H]; [now left | right; auto].
Qed.

Lemma get_del_Some d k k' v :
  wf d -> get (del d k) k' = Some v -> get d k' = Some v.
Proof.
  intros Hwf H. apply In_get; [exact Hwf|].
  apply in_del with k. now apply get_In.
Qed.
End Facts.
End PyDictFacts.
(* ===================================================================== *)
(** * The test file, replayed *)
(* ===================================================================== *)

Example test_register_valid_node :
  snd (register_node coordinator valid_node) = true
  /\ PyDict.contains (nodes (fst (register_node coordinator valid_node))) "node-1" = true.
Proof. split; reflexivity. Qed.

Example test_register_invalid_node :
  register_node coordinator invalid_node = (coordinator, false).
Proof. reflexivity. Qed.

Example test_unregister_node :
  let c := fst (register_node coordinator valid_node) in
  snd (unregister_node c "node-1") = true
  /\ PyDict.contains (nodes (fst (unregister_node c "node-1"))) "node-1" = false.
Proof. split; reflexivity. Qed.

Example test_submit_learning_task :
  let c := fst (register_node coordinator valid_node) in
  let r := submit_learning_task c task_1 in
  snd r = "task-1"
  /\ PyDict.get (tasks (fst r)) "task-1"
     = Some (LearningTask.set_assignment task_1 ["node-1"] "assigned")
  /\ PyDict.get (nodes (fst r)) "node-1"
     = Some (SwarmNode.set_status valid_node "busy").
Proof. repeat split; reflexivity. Qed.

Example test_set_resource_threshold :
  let c := fst (register_node coordinator valid_node) in
  PyDict.contains
    (nodes (set_resource_threshold c (ResourceThreshold.mk 32 16 0 10))) "node-1"
  = false.
Proof. reflexivity. Qed.


(* ===================================================================== *)
(** * Admission control *)
(* ===================================================================== *)

Lemma satisfies_capacity_ge (n : SwarmNode.t) (r : ResourceThreshold.t) :
  satisfies n r = true <-> capacity_ge n r.
Proof.
  unfold satisfies, capacity_ge, float_ge, int_ge.
  rewrite !andb_true_iff, !Qle_bool_iff, Z.leb_le. tauto.
Qed.

(** C1: [register_node] answers [True] exactly when the node's four
    capacity fields are each [>=] the matching field of the current
    threshold; on [True] the node is stored under its [node_id] (taking the
    place of an entry already there, every other entry and the tasks as
    they were), on [False] the coordinator is unchanged. *)
Theorem register_node_spec (self : SwarmCoordinator) (n : SwarmNode.t) :
  (snd (register_node self n) = true <-> capacity_ge n (resource_threshold self))
  /\ (snd (register_node self n) = true ->
      nodes (fst (register_node self n))
        = PyDict.set (nodes self) (SwarmNode.node_id n) n
      /\ PyDict.get (nodes (fst (register_node self n))) (SwarmNode.node_id n) = Some n
      /\ (forall k, k <> SwarmNode.node_id n ->
            PyDict.get (nodes (fst (register_node self n))) k
            = PyDict.get (nodes self) k)
      /\ (PyDict.contains (nodes self) (SwarmNode.node_id n) = true ->
            PyDict.len (nodes (fst (register_node self n))) = PyDict.len (nodes self))
      /\ tasks (fst (register_node self n)) = tasks self
      /\ resource_threshold (fst (register_node self n)) = resource_threshold self)
  /\ (snd (register_node self n) = false ->
      fst (register_node self n) = self).
Proof.
  unfold register_node, _meets_threshold.
  rewrite <- satisfies_capacity_ge.
  destruct (satisfies n (resource_threshold self)) eqn:E; simpl.
  - split; [tauto|]. split; [|discriminate]. intros _.
    repeat split.
    + apply PyDictFacts.get_set_same.
    + intros k Hk. now apply PyDictFacts.get_set_other.
    + apply PyDictFacts.len_set_present.
  - split; [split; discriminate|]. split; [discriminate | reflexivity].
Qed.

(** Unregistering preserves well-formedness and is a filter on keys. *)
Lemma unregister_node_nodes (self : SwarmCoordinator) (k : string) :
  PyDict.wf (nodes self) ->
  nodes (fst (unregister_node self k))
  = filter (fun kv => negb (String.eqb k (fst kv))) (nodes self).
Proof.
  intros Hwf. unfold unregister_node.
  destruct (PyDict.contains (nodes self) k) eqn:E; simpl.
  - now apply PyDictFacts.del_filter.
  - symmetry. apply forallb_filter_id, forallb_forall.
    intros [k' v] Hin. simpl. apply negb_true_iff, String.eqb_neq. intros ->.
    assert (PyDict.contains (nodes self) k' = true); [|congruence].
    apply PyDictFacts.contains_In_keys. now apply (in_map fst) in Hin.
Qed.

Lemma unregister_node_frame (self : SwarmCoordinator) (k : string) :
  tasks (fst (unregister_node self k)) = tasks self
  /\ resource_threshold (fst (unregister_node self k)) = resource_threshold self.
Proof.
  unfold unregister_node. now destruct (PyDict.contains (nodes self) k).
Qed.

Lemma unregister_node_wf (self : SwarmCoordinator) (k : string) :
  PyDict.wf (nodes self) -> PyDict.wf (nodes (fst (unregister_node self k))).
Proof.
  intros Hwf. unfold unregister_node.
  destruct (PyDict.contains (nodes self) k); simpl; [|exact Hwf].
  now apply PyDictFacts.wf_del.
Qed.

(** C8: [unregister_node] answers whether the key was registered; a
    registered key is gone afterwards, every other entry stays, an absent
    key changes nothing, and the task registry is the same in both cases. *)
Theorem unregister_node_spec (self : SwarmCoordinator) (node_id : string)
        (Hwf : PyDict.wf (nodes self)) :
  snd (unregister_node self node_id) = PyDict.contains (nodes self) node_id
  /\ PyDict.get (nodes (fst (unregister_node self node_id))) node_id = None
  /\ (forall k, k <> node_id ->
        PyDict.get (nodes (fst (unregister_node self node_id))) k
        = PyDict.get (nodes self) k)
  /\ (PyDict.contains (nodes self) node_id = false ->
        fst (unregister_node self node_id) = self)
  /\ tasks (fst (unregister_node self node_id)) = tasks self
  /\ resource_threshold (fst (unregister_node self node_id)) = resource_threshold self.
Proof.
  unfold unregister_node.
  destruct (PyDict.contains (nodes self) node_id) eqn:E; simpl.
  - repeat split; try discriminate.
    + now apply PyDictFacts.get_del_same.
    + intros k Hk. now apply PyDictFacts.get_del_other.
  - repeat split.
    unfold PyDict.contains in E. now destruct (PyDict.get (nodes self) node_id).
Qed.

Lemma wf_singleton {V : Type} (k : string) (v : V) : PyDict.wf [(k, v)].
Proof. repeat constructor. simpl. tauto. Qed.

(** Unregistering [node-1] while [task-1] is assigned to it: the node is
    gone and the task still names it. *)
Lemma unregister_node_spec_witness :
  PyDict.get (nodes (fst (unregister_node coordinator_assigned "node-1"))) "node-1" = None
  /\ tasks (fst (unregister_node coordinator_assigned "node-1"))
     = [("task-1", assigned_task_1)].
Proof.
  pose proof (unregister_node_spec coordinator_assigned "node-1"
                (wf_singleton "node-1" busy_node_1)) as H.
  split; [apply H|]. destruct H as (_ & _ & _ & _ & Ht & _). exact Ht.
Defined.

(* ===================================================================== *)
(** * Governance: changing the threshold *)
(* ===================================================================== *)

Lemma unregister_all_frame (ks : list string) (self : SwarmCoordinator) :
  tasks (unregister_all self ks) = tasks self
  /\ resource_threshold (unregister_all self ks) = resource_threshold self.
Proof.
  unfold unregister_all. revert self.
  induction ks as [|k ks IH]; intros self; simpl; [tauto|].
  destruct (IH (fst (unregister_node self k))) as [-> ->].
  apply unregister_node_frame.
Qed.

Lemma unregister_all_nodes (ks : list string) (self : SwarmCoordinator) :
  PyDict.wf (nodes self) ->
  nodes (unregister_all self ks)
  = filter (fun kv => negb (existsb (String.eqb (fst kv)) ks)) (nodes self).
Proof.
  unfold unregister_all. revert self.
  induction ks as [|k ks IH]; intros self Hwf; simpl.
  - symmetry. now apply forallb_filter_id, forallb_forall.
  - rewrite IH by now apply unregister_node_wf.
    rewrite unregister_node_nodes by exact Hwf.
    clear. induction (nodes self) as [|[k' v] d IHd]; simpl; [reflexivity|].
    rewrite (String.eqb_sym k' k).
    destruct (String.eqb k k'); simpl; [exact IHd|].
    destruct (existsb (String.eqb k') ks); simpl; [exact IHd|].
    now rewrite IHd.
Qed.

Lemma set_resource_threshold_nodes (self : SwarmCoordinator) (t2 : ResourceThreshold.t) :
  PyDict.wf (nodes self) ->
  nodes (set_resource_threshold self t2)
  = filter (fun kn => satisfies (snd kn) t2) (nodes self).
Proof.
  intros Hwf. unfold set_resource_threshold.
  change (fold_left _ ?ks ?c) with (unregister_all c ks).
  rewrite unregister_all_nodes by exact Hwf. simpl.
  apply filter_ext_in. intros [k n] Hin. simpl.
  unfold _meets_threshold, PyDict.items. simpl.
  destruct (satisfies n t2) eqn:E.
  - apply negb_true_iff. apply not_true_iff_false. intros Hex.
    apply existsb_exists in Hex. destruct Hex as (k' & Hk' & Heq).
    apply String.eqb_eq in Heq. subst k'.
    apply in_map_iff in Hk'. destruct Hk' as ([k' n'] & Hfst & Hf).
    simpl in Hfst. subst k'.
    apply filter_In in Hf. destruct Hf as [Hin' Hbad]. simpl in Hbad.
    assert (n' = n).
    { apply (PyDictFacts.In_get _ _ _ Hwf) in Hin, Hin'. congruence. }
    subst n'. rewrite E in Hbad. discriminate.
  - apply negb_false_iff. apply existsb_exists. exists k.
    split; [|apply String.eqb_refl].
    apply in_map_iff. exists (k, n). split; [reflexivity|].
    apply filter_In. split; [exact Hin|]. simpl. now rewrite E.
Qed.

(** C3: after [set_resource_threshold t2] the threshold is [t2]; the
    registry holds exactly the former nodes whose capacity is field-wise
    [>=] [t2], so every remaining node satisfies [t2] and a node that
    violates it is no longer registered; the failing nodes go through
    [unregister_node], one after the other; the tasks are untouched. *)
Theorem set_resource_threshold_spec (self : SwarmCoordinator) (t2 : ResourceThreshold.t)
        (Hwf : PyDict.wf (nodes self)) :
  resource_threshold (set_resource_threshold self t2) = t2
  /\ (forall k n, In (k, n) (PyDict.items (nodes (set_resource_threshold self t2))) ->
        capacity_ge n t2
        /\ _meets_threshold (set_resource_threshold self t2) n = true)
  /\ (forall k n, In (k, n) (PyDict.items (nodes self)) -> ~ capacity_ge n t2 ->
        PyDict.get (nodes (set_resource_threshold self t2)) k = None)
  /\ (forall k n, In (k, n) (PyDict.items (nodes self)) -> capacity_ge n t2 ->
        PyDict.get (nodes (set_resource_threshold self t2)) k = Some n)
  /\ set_resource_threshold self t2
     = fold_left (fun c node_id => fst (unregister_node c node_id))
         (map fst (filter (fun kn => negb (satisfies (snd kn) t2))
                          (PyDict.items (nodes self))))
         (mkCoordinator t2 (nodes self) (tasks self))
  /\ tasks (set_resource_threshold self t2) = tasks self.
Proof.
  assert (Hthr : resource_threshold (set_resource_threshold self t2) = t2).
  { unfold set_resource_threshold.
    change (fold_left _ ?ks ?c) with (unregister_all c ks).
    now rewrite (proj2 (unregister_all_frame _ _)). }
  assert (Hwf' : PyDict.wf (nodes (set_resource_threshold self t2))).
  { rewrite set_resource_threshold_nodes by exact Hwf.
    now apply PyDictFacts.wf_filter. }
  split; [exact Hthr|].
  split; [|split; [|split; [|split]]].
  - intros k n Hin. unfold _meets_threshold. rewrite Hthr.
    rewrite set_resource_threshold_nodes in Hin by exact Hwf.
    apply filter_In in Hin. destruct Hin as [_ Hs]. simpl in Hs.
    split; [now apply satisfies_capacity_ge | exact Hs].
  - intros k n Hin Hbad.
    destruct (PyDict.get (nodes (set_resource_threshold self t2)) k) as [n'|] eqn:G;
      [|reflexivity].
    exfalso. apply PyDictFacts.get_In in G.
    rewrite set_resource_threshold_nodes in G by exact Hwf.
    apply filter_In in G. destruct G as [Hin' Hs]. simpl in Hs.
    apply (PyDictFacts.In_get _ _ _ Hwf) in Hin, Hin'.
    assert (n' = n) by congruence. subst n'.
    now apply Hbad, satisfies_capacity_ge.
  - intros k n Hin Hok. apply (PyDictFacts.In_get _ _ _ Hwf').
    rewrite set_resource_threshold_nodes by exact Hwf.
    apply filter_In. split; [exact Hin|]. now apply satisfies_capacity_ge.
  - reflexivity.
  - unfold set_resource_threshold.
    change (fold_left _ ?ks ?c) with (unregister_all c ks).
    now rewrite (proj1 (unregister_all_frame _ _)).
Qed.

(** Scenario 5 of the specification: raising the threshold to 32 GB and 16
    cores evicts [node-1] and leaves [task-1] assigned to it. *)
Lemma set_resource_threshold_spec_witness :
  PyDict.get
    (nodes (set_resource_threshold coordinator_assigned (ResourceThreshold.mk 32 16 0 10)))
    "node-1" = None
  /\ tasks (set_resource_threshold coordinator_assigned (ResourceThreshold.mk 32 16 0 10))
     = [("task-1", assigned_task_1)].
Proof.
  pose proof (set_resource_threshold_spec coordinator_assigned
                (ResourceThreshold.mk 32 16 0 10)
                (wf_singleton "node-1" busy_node_1)) as H.
  destruct H as (_ & _ & Hgone & _ & _ & Ht).
  split; [|exact Ht].
  apply (Hgone "node-1" busy_node_1); [now left|].
  intros (Hm & _). vm_compute in Hm. now apply Hm.
Defined.

(* ===================================================================== *)
(** * The order of the sort *)
(* ===================================================================== *)

Lemma float_lt_iff (a b : Q) : float_lt a b = true <-> (a < b)%Q.
Proof.
  unfold float_lt. rewrite Qlt_alt.
  destruct (a ?= b)%Q; split; congruence.
Qed.

(** [not (a < b)] on sort keys is [b <= a] in the lexicographic order. *)
Lemma tuple_lt_false (a b : Q * Z) : tuple_lt a b = false <-> lex_le b a.
Proof.
  unfold tuple_lt, lex_le.
  destruct (Qeq_bool (fst a) (fst b)) eqn:E.
  - apply Qeq_bool_iff in E. rewrite Z.ltb_ge. split.
    + intros H. right. split; [now symmetry | exact H].
    + intros [H|[_ H]]; [|exact H].
      rewrite E in H. now apply Qlt_irrefl in H.
  - apply Qeq_bool_neq in E. rewrite <- not_true_iff_false, float_lt_iff. split.
    + intros H. left. apply Qnot_lt_le in H.
      apply Qle_lt_or_eq in H. destruct H as [H|H]; [exact H|].
      exfalso. apply E. now symmetry.
    + intros [H|[H _]].
      * now apply Qle_not_lt, Qlt_le_weak.
      * exfalso. apply E. now symmetry.
Qed.

Lemma tuple_lt_true (a b : Q * Z) : tuple_lt a b = true -> lex_le a b.
Proof.
  unfold tuple_lt, lex_le.
  destruct (Qeq_bool (fst a) (fst b)) eqn:E.
  - apply Qeq_bool_iff in E. rewrite Z.ltb_lt. intros H. right. split; [exact E | lia].
  - rewrite float_lt_iff. now left.
Qed.

Lemma lex_le_refl (a : Q * Z) : lex_le a a.
Proof. right. split; [reflexivity | lia]. Qed.

Lemma lex_le_trans (a b c : Q * Z) : lex_le a b -> lex_le b c -> lex_le a c.
Proof.
  unfold lex_le. intros [H1|[H1 H1']] [H2|[H2 H2']].
  - left. now apply Qlt_trans with (fst b).
  - left. now rewrite <- H2.
  - left. now rewrite H1.
  - right. split; [now rewrite H1 | lia].
Qed.

Section SortFacts.
Context {A : Type} (key : A -> Q * Z).

Lemma insert_desc_length (x : A) (l : list A) :
  List.length (insert_desc key x l) = S (List.length l).
Proof.
  induction l as [|y l IH]; simpl; [reflexivity|].
  destruct (tuple_lt (key x) (key y)); simpl; congruence.
Qed.

Lemma sort_desc_length (l : list A) :
  List.length (sort_desc key l) = List.length l.
Proof.
  induction l as [|x l IH]; simpl; [reflexivity|].
  now rewrite insert_desc_length, IH.
Qed.

(** The first element after sorting is the earliest element of the input
    whose key is maximal: everything before it is strictly smaller,
    nothing after it is larger. *)
Lemma sort_desc_head (l : list A) :
  match sort_desc key l with
  | [] => l = []
  | h :: _ =>
      exists l1 l2,
        l = l1 ++ h :: l2
        /\ (forall y, In y l1 -> tuple_lt (key y) (key h) = true)
        /\ (forall y, In y l2 -> lex_le (key y) (key h))
  end.
Proof.
  induction l as [|x l IH]; simpl; [reflexivity|].
  destruct (sort_desc key l) as [|h r]; simpl.
  - subst l. exists [], []. repeat split; intros y [].
  - destruct IH as (l1 & l2 & -> & Hlt & Hle).
    destruct (tuple_lt (key x) (key h)) eqn:E.
    + exists (x :: l1), l2. repeat split; [|exact Hle].
      intros y [<-|Hy]; [exact E | now apply Hlt].
    + exists [], (l1 ++ h :: l2). repeat split; [intros y []|].
      apply tuple_lt_false in E. intros y Hy.
      apply lex_le_trans with (key h); [|exact E].
      apply in_app_or in Hy. destruct Hy as [Hy|[<-|Hy]].
      * now apply tuple_lt_true, Hlt.
      * apply lex_le_refl.
      * now apply Hle.
Qed.

Lemma sort_desc_head_max (l : list A) (h : A) (r : list A) :
  sort_desc key l = h :: r ->
  In h l /\ forall y, In y l -> lex_le (key y) (key h).
Proof.
  intros E. pose proof (sort_desc_head l) as H. rewrite E in H.
  destruct H as (l1 & l2 & -> & Hlt & Hle). split.
  - apply in_or_app. right. now left.
  - intros y Hy. apply in_app_or in Hy. destruct Hy as [Hy|[<-|Hy]].
    + now apply tuple_lt_true, Hlt.
    + apply lex_le_refl.
    + now apply Hle.
Qed.
End SortFacts.

(* ===================================================================== *)
(** * Matching *)
(* ===================================================================== *)

Lemma suitable_nodes_candidate self task k n :
  In (k, n) (suitable_nodes self task) <-> candidate self task k n.
Proof.
  unfold suitable_nodes, candidate, _node_suitable_for_task.
  rewrite filter_In. simpl.
  rewrite andb_true_iff, String.eqb_eq, satisfies_capacity_ge. tauto.
Qed.

Lemma suitable_nodes_empty self task :
  suitable_nodes self task = [] <-> forall k n, ~ candidate self task k n.
Proof.
  split.
  - intros E k n H. apply suitable_nodes_candidate in H. now rewrite E in H.
  - intros H. destruct (suitable_nodes self task) as [|[k n] l] eqn:E; [reflexivity|].
    exfalso. apply (H k n), suitable_nodes_candidate. rewrite E. now left.
Qed.

Lemma _assign_nodes_to_task_outcome self task_id :
  assign_outcome self task_id (_assign_nodes_to_task self task_id).
Proof.
  unfold _assign_nodes_to_task.
  destruct (PyDict.get (tasks self) task_id) as [task|] eqn:G;
    [|now apply assign_unknown].
  destruct (suitable_nodes self task) as [|x l] eqn:S;
    [now apply assign_no_candidate with task|].
  destruct (sort_desc _ (x :: l)) as [|[k n] rest] eqn:E.
  - apply (f_equal (@List.length _)) in E.
    rewrite sort_desc_length in E. discriminate.
  - apply assign_chosen with rest; [exact G | now rewrite S].
Qed.

(** C6: [_assign_nodes_to_task] answers [False] in exactly two cases, an
    unknown task id and a known task without any candidate node, and then
    the whole coordinator (threshold and both registries) is unchanged; in
    particular a pending task with no assigned node stays so. *)
Theorem assign_failure_spec (self : SwarmCoordinator) (task_id : string) :
  (snd (_assign_nodes_to_task self task_id) = false <->
     PyDict.get (tasks self) task_id = None
     \/ exists task, PyDict.get (tasks self) task_id = Some task
                     /\ forall k n, ~ candidate self task k n)
  /\ (snd (_assign_nodes_to_task self task_id) = false ->
      fst (_assign_nodes_to_task self task_id) = self)
  /\ (PyDict.get (tasks self) task_id = None ->
      _assign_nodes_to_task self task_id = (self, false))
  /\ (forall task,
        PyDict.get (tasks self) task_id = Some task ->
        (forall k n, ~ candidate self task k n) ->
        _assign_nodes_to_task self task_id = (self, false)
        /\ (LearningTask.status task = "pending" ->
            LearningTask.assigned_nodes task = [] ->
            exists task',
              PyDict.get (tasks (fst (_assign_nodes_to_task self task_id))) task_id
                = Some task'
              /\ LearningTask.status task' = "pending"
              /\ LearningTask.assigned_nodes task' = [])).
Proof.
  pose proof (_assign_nodes_to_task_outcome self task_id) as H.
  destruct H as [G | tk G S | tk k n rest G E]; simpl.
  - split; [|split; [|split]].
    + split; [intros _; now left | reflexivity].
    + reflexivity.
    + reflexivity.
    + intros task G'. congruence.
  - split; [|split; [|split]].
    + split; [|reflexivity].
      intros _. right. exists tk. split; [exact G|]. now apply suitable_nodes_empty.
    + reflexivity.
    + reflexivity.
    + intros task G' _. split; [reflexivity|].
      intros Hp Ha. exists task. tauto.
  - assert (Hc : candidate self tk k n).
    { apply suitable_nodes_candidate.
      exact (proj1 (sort_desc_head_max _ _ _ _ E)). }
    split; [|split; [discriminate|split]].
    + split; [discriminate|]. intros [G'|(task' & G' & Hno)]; [congruence|].
      exfalso. assert (task' = tk) by congruence. subst. now apply (Hno k n).
    + congruence.
    + intros task' G' Hno. exfalso.
      assert (task' = tk) by congruence. subst. now apply (Hno k n).
Qed.

Lemma assign_success self task_id task :
  PyDict.get (tasks self) task_id = Some task ->
  (exists k n, candidate self task k n) ->
  exists k n rest,
    sort_desc (fun kn => sort_key (snd kn)) (suitable_nodes self task) = (k, n) :: rest
    /\ _assign_nodes_to_task self task_id
       = (mkCoordinator
            (resource_threshold self)
            (PyDict.set (nodes self) k (SwarmNode.set_status n "busy"))
            (PyDict.set (tasks self) task_id
               (LearningTask.set_assignment task [SwarmNode.node_id n] "assigned")),
          true).
Proof.
  intros G (k0 & n0 & Hc).
  pose proof (_assign_nodes_to_task_outcome self task_id) as H.
  inversion H as [G' | tk G' S | tk k n rest G' E].
  - congruence.
  - exfalso. assert (tk = task) by congruence. subst tk.
    exact (proj1 (suitable_nodes_empty _ _) S k0 n0 Hc).
  - assert (tk = task) by congruence. subst tk.
    exists k, n, rest. split; [exact E | reflexivity].
Qed.

Lemma assign_without_candidate self task_id task :
  PyDict.get (tasks self) task_id = Some task ->
  (forall k n, ~ candidate self task k n) ->
  _assign_nodes_to_task self task_id = (self, false).
Proof.
  intros G Hno.
  pose proof (_assign_nodes_to_task_outcome self task_id) as H.
  inversion H as [G' | tk G' S | tk k n rest G' E]; try reflexivity.
  exfalso. assert (tk = task) by congruence. subst tk.
  apply (Hno k n), suitable_nodes_candidate.
  exact (proj1 (sort_desc_head_max _ _ _ _ E)).
Qed.

(** The chosen node is a candidate that no candidate exceeds. *)
Lemma sort_head_best self task k n rest :
  sort_desc (fun kn => sort_key (snd kn)) (suitable_nodes self task) = (k, n) :: rest ->
  candidate self task k n
  /\ forall k' n', candidate self task k' n' -> lex_le (sort_key n') (sort_key n).
Proof.
  intros E. destruct (sort_desc_head_max _ _ _ _ E) as [Hin Hmax]. split.
  - now apply suitable_nodes_candidate.
  - intros k' n' Hc. apply suitable_nodes_candidate in Hc.
    exact (Hmax (k', n') Hc).
Qed.

(** Among equally spacious candidates the one registered first is chosen. *)
Lemma sort_head_earliest self task k n rest :
  sort_desc (fun kn => sort_key (snd kn)) (suitable_nodes self task) = (k, n) :: rest ->
  exists before after,
    suitable_nodes self task = before ++ (k, n) :: after
    /\ forall k' n', In (k', n') before -> ~ lex_le (sort_key n) (sort_key n').
Proof.
  intros E. pose proof (sort_desc_head (fun kn => sort_key (snd kn))
                          (suitable_nodes self task)) as H.
  rewrite E in H. destruct H as (l1 & l2 & Heq & Hlt & _).
  exists l1, l2. split; [exact Heq|].
  intros k' n' Hin Hle. specialize (Hlt (k', n') Hin). simpl in Hlt.
  apply tuple_lt_false in Hle. congruence.
Qed.

(** A successful assignment: the chosen node and the new coordinator. *)
Lemma assign_chosen_effect (self : SwarmCoordinator) (task_id : string)
      (task : LearningTask.t) :
  PyDict.get (tasks self) task_id = Some task ->
  (exists k n, candidate self task k n) ->
  exists k n,
    candidate self task k n
    /\ (forall k' n', candidate self task k' n' -> lex_le (sort_key n') (sort_key n))
    /\ (exists before after,
          suitable_nodes self task = before ++ (k, n) :: after
          /\ forall k' n', In (k', n') before -> ~ lex_le (sort_key n) (sort_key n'))
    /\ _assign_nodes_to_task self task_id
       = (mkCoordinator
            (resource_threshold self)
            (PyDict.set (nodes self) k (SwarmNode.set_status n "busy"))
            (PyDict.set (tasks self) task_id
               (LearningTask.set_assignment task [SwarmNode.node_id n] "assigned")),
          true).
Proof.
  intros Htask Hcand.
  destruct (assign_success self task_id task Htask Hcand) as (k & n & rest & E & ->).
  destruct (sort_head_best _ _ _ _ _ E) as [Hc Hmax].
  exists k, n. repeat split; try apply Hc; try assumption.
  now apply sort_head_earliest with rest.
Qed.

(** C2, amended: when the task is known and has a candidate,
    [_assign_nodes_to_task] answers [True], picks the candidate that is
    maximal for the lexicographic order on (memory, cores), the earliest
    registered one among equals, sets its status to busy, sets the task's
    status to assigned, and REPLACES the task's [assigned_nodes] by the
    one-element list of the chosen node's id.  Every other node and task,
    and the threshold, stay as they were. *)
Theorem assign_success_spec (self : SwarmCoordinator) (task_id : string)
        (task : LearningTask.t)
        (Hwf : PyDict.wf (nodes self))
        (Htask : PyDict.get (tasks self) task_id = Some task)
        (Hcand : exists k n, candidate self task k n) :
  exists k n,
    candidate self task k n
    /\ PyDict.get (nodes self) k = Some n
    /\ (forall k' n', candidate self task k' n' -> lex_le (sort_key n') (sort_key n))
    /\ (exists before after,
          suitable_nodes self task = before ++ (k, n) :: after
          /\ forall k' n', In (k', n') before -> ~ lex_le (sort_key n) (sort_key n'))
    /\ snd (_assign_nodes_to_task self task_id) = true
    /\ PyDict.get (nodes (fst (_assign_nodes_to_task self task_id))) k
       = Some (SwarmNode.set_status n "busy")
    /\ (forall k', k' <> k ->
          PyDict.get (nodes (fst (_assign_nodes_to_task self task_id))) k'
          = PyDict.get (nodes self) k')
    /\ PyDict.get (tasks (fst (_assign_nodes_to_task self task_id))) task_id
       = Some (LearningTask.set_assignment task [SwarmNode.node_id n] "assigned")
    /\ (forall t', t' <> task_id ->
          PyDict.get (tasks (fst (_assign_nodes_to_task self task_id))) t'
          = PyDict.get (tasks self) t')
    /\ resource_threshold (fst (_assign_nodes_to_task self task_id))
       = resource_threshold self.
Proof.
  destruct (assign_chosen_effect self task_id task Htask Hcand)
    as (k & n & Hc & Hmax & Hfirst & ->).
  exists k, n. simpl.
  split; [exact Hc|]. split; [apply (PyDictFacts.In_get _ _ _ Hwf), Hc|].
  split; [exact Hmax|]. split; [exact Hfirst|]. split; [reflexivity|].
  split; [apply PyDictFacts.get_set_same|].
  split; [intros k' Hk'; now apply PyDictFacts.get_set_other|].
  split; [apply PyDictFacts.get_set_same|].
  split; [intros t' Ht'; now apply PyDictFacts.get_set_other | reflexivity].
Qed.


Lemma wf_coordinator_two_nodes : PyDict.wf (nodes coordinator_two_nodes).
Proof. vm_compute. repeat constructor; simpl; intuition discriminate. Qed.

Lemma small_node_candidate :
  candidate coordinator_two_nodes assigned_task_1 "node-3" small_node.
Proof.
  split; [vm_compute; tauto|]. split; [reflexivity|].
  apply satisfies_capacity_ge. reflexivity.
Qed.

(** Scenario 3 continued: [task-1] sits on [node-1]; a second assignment
    finds the idle [node-3]. *)
Lemma assign_success_spec_witness :
  exists k n,
    candidate coordinator_two_nodes assigned_task_1 k n
    /\ PyDict.get (tasks (fst (_assign_nodes_to_task coordinator_two_nodes "task-1")))
                  "task-1"
       = Some (LearningTask.set_assignment assigned_task_1 [SwarmNode.node_id n]
                                           "assigned").
Proof.
  destruct (assign_success_spec coordinator_two_nodes "task-1" assigned_task_1
              wf_coordinator_two_nodes eq_refl
              (ex_intro _ "node-3" (ex_intro _ small_node small_node_candidate)))
    as (k & n & Hc & _ & _ & _ & _ & _ & _ & Ht & _).
  exists k, n. split; [exact Hc | exact Ht].
Defined.

(** C2 as written fails: assignment does not append to [assigned_nodes].
    [task-1] is assigned to [node-1]; assigning it again picks [node-3] and
    the list becomes [["node-3"]], not [["node-1"; "node-3"]]. *)
Lemma assign_appends_counterexample :
  ~ (forall (self : SwarmCoordinator) (task_id : string) (task : LearningTask.t),
        PyDict.wf (nodes self) ->
        PyDict.get (tasks self) task_id = Some task ->
        (exists k n, candidate self task k n) ->
        exists k n,
          candidate self task k n
          /\ (forall k' n', candidate self task k' n' ->
                lex_le (sort_key n') (sort_key n))
          /\ snd (_assign_nodes_to_task self task_id) = true
          /\ PyDict.get (nodes (fst (_assign_nodes_to_task self task_id))) k
             = Some (SwarmNode.set_status n "busy")
          /\ PyDict.get (tasks (fst (_assign_nodes_to_task self task_id))) task_id
             = Some (LearningTask.set_assignment task
                       (LearningTask.assigned_nodes task ++ [SwarmNode.node_id n])
                       "assigned")).
Proof.
  intros H.
  destruct (H coordinator_two_nodes "task-1" assigned_task_1
              wf_coordinator_two_nodes eq_refl
              (ex_intro _ "node-3" (ex_intro _ small_node small_node_candidate)))
    as (k & n & _ & _ & _ & _ & Ht).
  vm_compute in Ht. discriminate Ht.
Qed.

(* ===================================================================== *)
(** * Task intake *)
(* ===================================================================== *)

Lemma assign_tasks_len self task_id :
  PyDict.len (tasks (fst (_assign_nodes_to_task self task_id))) = PyDict.len (tasks self)
  /\ forall t, PyDict.contains (tasks self) t = true ->
               PyDict.contains (tasks (fst (_assign_nodes_to_task self task_id))) t = true.
Proof.
  pose proof (_assign_nodes_to_task_outcome self task_id) as H.
  destruct H as [G | tk G S | tk k n rest G E]; simpl; try tauto.
  assert (Hc : PyDict.contains (tasks self) task_id = true).
  { unfold PyDict.contains. now rewrite G. }
  split; [now apply PyDictFacts.len_set_present|].
  intros t Ht. unfold PyDict.contains.
  destruct (String.eqb t task_id) eqn:Et.
  - apply String.eqb_eq in Et. subst t. now rewrite PyDictFacts.get_set_same.
  - apply String.eqb_neq in Et. now rewrite PyDictFacts.get_set_other.
Qed.

(** C5, amended: [submit_learning_task] stores the task under its
    [task_id] exactly as supplied (so with status pending when the caller
    left the default), whether or not a suitable node exists; it then runs
    [_assign_nodes_to_task] on that id and returns the id.  Without a
    candidate the stored task is left as supplied.  A task id that was
    already present is overwritten: the task registry keeps its size. *)
Theorem submit_learning_task_spec (self : SwarmCoordinator) (task : LearningTask.t) :
  snd (submit_learning_task self task) = LearningTask.task_id task
  /\ PyDict.get (tasks (store_task self task)) (LearningTask.task_id task) = Some task
  /\ (LearningTask.status task = "pending" ->
      exists t', PyDict.get (tasks (store_task self task)) (LearningTask.task_id task)
                 = Some t'
                 /\ LearningTask.status t' = "pending")
  /\ nodes (store_task self task) = nodes self
  /\ fst (submit_learning_task self task)
     = fst (_assign_nodes_to_task (store_task self task) (LearningTask.task_id task))
  /\ PyDict.contains (tasks (fst (submit_learning_task self task)))
                     (LearningTask.task_id task) = true
  /\ ((forall k n, ~ candidate self task k n) ->
      fst (submit_learning_task self task) = store_task self task)
  /\ (PyDict.contains (tasks self) (LearningTask.task_id task) = true ->
      PyDict.len (tasks (fst (submit_learning_task self task)))
      = PyDict.len (tasks self)).
Proof.
  assert (Hget : PyDict.get (tasks (store_task self task)) (LearningTask.task_id task)
                 = Some task) by apply PyDictFacts.get_set_same.
  split; [reflexivity|]. split; [exact Hget|].
  split; [intros Hp; now exists task|].
  split; [reflexivity|]. split; [reflexivity|].
  unfold submit_learning_task. cbn [fst snd].
  split; [|split].
  - apply assign_tasks_len. unfold PyDict.contains. now rewrite Hget.
  - intros Hno.
    now rewrite (assign_without_candidate (store_task self task) _ task Hget Hno).
  - intros Hc. rewrite (proj1 (assign_tasks_len _ _)).
    now apply PyDictFacts.len_set_present.
Qed.

(** C5 as written fails: the stored task does not always carry status
    pending.  A task submitted as completed is stored as completed. *)
Lemma submit_stores_pending_counterexample :
  ~ (forall (self : SwarmCoordinator) (task : LearningTask.t),
        exists t',
          PyDict.get (tasks (store_task self task)) (LearningTask.task_id task) = Some t'
          /\ LearningTask.status t' = "pending")
  /\ PyDict.get (tasks (fst (submit_learning_task coordinator completed_task))) "task-9"
     = Some completed_task.
Proof.
  split; [|reflexivity].
  intros H. destruct (H coordinator completed_task) as (t' & Hget & Hst).
  vm_compute in Hget. injection Hget as <-. discriminate Hst.
Qed.

(** C10: assignment never looks at the task's status, and submission does
    not force it to pending.  Whatever status and assigned nodes the
    submitted task carries: when no candidate node exists,
    [submit_learning_task] leaves the task in the registry exactly as
    supplied, status included, and touches no node; when a candidate exists,
    it replaces the task's [assigned_nodes] by the chosen node's id alone,
    sets the task's status to assigned and the node's status to busy. *)
Theorem submit_ignores_status (self : SwarmCoordinator) (task : LearningTask.t) :
  ((forall k n, ~ candidate self task k n) ->
   PyDict.get (tasks (fst (submit_learning_task self task)))
              (LearningTask.task_id task)
   = Some task
   /\ nodes (fst (submit_learning_task self task)) = nodes self)
  /\ ((exists k n, candidate self task k n) ->
      exists k n,
        candidate self task k n
        /\ (forall k' n', candidate self task k' n' ->
              lex_le (sort_key n') (sort_key n))
        /\ PyDict.get (tasks (fst (submit_learning_task self task)))
                      (LearningTask.task_id task)
           = Some (LearningTask.set_assignment task [SwarmNode.node_id n] "assigned")
        /\ PyDict.get (nodes (fst (submit_learning_task self task))) k
           = Some (SwarmNode.set_status n "busy"))
  /\ PyDict.get (tasks (store_task self task)) (LearningTask.task_id task) = Some task.
Proof.
  assert (Hget : PyDict.get (tasks (store_task self task)) (LearningTask.task_id task)
                 = Some task) by apply PyDictFacts.get_set_same.
  split; [|split; [|exact Hget]].
  - intros Hno. unfold submit_learning_task. cbn [fst].
    rewrite (assign_without_candidate (store_task self task) _ task Hget Hno).
    split; [exact Hget | reflexivity].
  - intros Hcand.
    destruct (assign_chosen_effect (store_task self task) (LearningTask.task_id task)
                task Hget Hcand)
      as (k & n & Hc & Hmax & _ & Heq).
    exists k, n. unfold submit_learning_task. cbn [fst]. rewrite Heq.
    cbn [fst nodes tasks].
    split; [exact Hc|]. split; [exact Hmax|].
    split; apply PyDictFacts.get_set_same.
Qed.

Lemma wf_coordinator_one_node : PyDict.wf (nodes coordinator_one_node).
Proof. apply wf_singleton. Qed.

Lemma valid_node_candidate :
  candidate coordinator_one_node completed_task "node-1" valid_node.
Proof.
  split; [now left|]. split; [reflexivity|].
  apply satisfies_capacity_ge. reflexivity.
Qed.

(** A task submitted as completed on [node-9]: with no node registered it
    is stored as completed on [node-9]; with the idle [node-1] registered
    it ends up assigned to [node-1], which becomes busy. *)
Lemma submit_ignores_status_witness :
  LearningTask.status completed_task = "completed"
  /\ PyDict.get (tasks (fst (submit_learning_task coordinator completed_task)))
                "task-9"
     = Some completed_task
  /\ PyDict.get (tasks (fst (submit_learning_task coordinator_one_node completed_task)))
                "task-9"
     = Some (LearningTask.set_assignment completed_task ["node-1"] "assigned")
  /\ PyDict.get (nodes (fst (submit_learning_task coordinator_one_node completed_task)))
                "node-1"
     = Some (SwarmNode.set_status valid_node "busy").
Proof.
  destruct (submit_ignores_status coordinator completed_task) as (Hnone & _ & _).
  destruct (submit_ignores_status coordinator_one_node completed_task)
    as (_ & Hsome & _).
  destruct (Hsome (ex_intro _ "node-1" (ex_intro _ valid_node valid_node_candidate)))
    as (k & n & Hc & _ & Ht & Hn).
  destruct Hc as [[Heq|[]] _]. injection Heq as <- <-.
  split; [reflexivity|].
  split; [apply Hnone; intros k n [[] _]|].
  split; [exact Ht | exact Hn].
Defined.

(* ===================================================================== *)
(** * Status snapshot *)
(* ===================================================================== *)

Lemma fold_add_ones {A : Type} (l : list A) (acc : Z) :
  fold_left Z.add (map (fun _ => 1) l) acc = acc + Z.of_nat (List.length l).
Proof.
  revert acc. induction l as [|x l IH]; intros acc; simpl List.length; simpl fold_left.
  - lia.
  - rewrite IH. lia.
Qed.

Lemma sum_ones_count {A : Type} (p : A -> bool) (l : list A) :
  sum_ones p l = count_where p l.
Proof. unfold sum_ones, count_where. now rewrite fold_add_ones. Qed.

(** Four mutually exclusive statuses that cover every node partition the
    registry. *)
Lemma status_partition (l : list SwarmNode.t) :
  (forall n, In n l ->
     SwarmNode.status n = "idle" \/ SwarmNode.status n = "busy"
     \/ SwarmNode.status n = "learning" \/ SwarmNode.status n = "error") ->
  count_where (node_status_is "idle") l + count_where (node_status_is "busy") l
  + count_where (node_status_is "learning") l + count_where (node_status_is "error") l
  = Z.of_nat (List.length l).
Proof.
  unfold count_where, node_status_is.
  induction l as [|n l IH]; intros H; [reflexivity|].
  assert (IH' := IH (fun m Hm => H m (or_intror Hm))). clear IH.
  destruct (H n (or_introl eq_refl)) as [E|[E|[E|E]]];
    cbn [filter List.length]; rewrite E; cbn [String.eqb Ascii.eqb Bool.eqb];
    cbn [List.length]; lia.
Qed.

(** C7, amended: the snapshot is computed from the coordinator alone and
    holds eight entries: the number of registered nodes, the numbers of
    idle, busy and learning nodes, the numbers of pending, running and
    completed tasks, and the threshold as key/value data.  It holds no count
    of the nodes in error: when every node has one of the four statuses,
    the three node counts and the number of nodes in error add up to
    [total_nodes]. *)
Theorem get_swarm_status_spec (self : SwarmCoordinator) :
  get_swarm_status self
  = [ ("total_nodes", PyNum (PyInt (Z.of_nat (List.length (nodes self)))));
      ("idle_nodes",
       PyNum (PyInt (count_where (node_status_is "idle") (PyDict.values (nodes self)))));
      ("busy_nodes",
       PyNum (PyInt (count_where (node_status_is "busy") (PyDict.values (nodes self)))));
      ("learning_nodes",
       PyNum (PyInt (count_where (node_status_is "learning")
                                 (PyDict.values (nodes self)))));
      ("pending_tasks",
       PyNum (PyInt (count_where (task_status_is "pending")
                                 (PyDict.values (tasks self)))));
      ("running_tasks",
       PyNum (PyInt (count_where (task_status_is "running")
                                 (PyDict.values (tasks self)))));
      ("completed_tasks",
       PyNum (PyInt (count_where (task_status_is "completed")
                                 (PyDict.values (tasks self)))));
      ("resource_threshold",
       PyMap [ ("min_memory_gb",
                PyFloat (ResourceThreshold.min_memory_gb (resource_threshold self)));
               ("min_cpu_cores",
                PyInt (ResourceThreshold.min_cpu_cores (resource_threshold self)));
               ("min_gpu_memory_gb",
                PyFloat (ResourceThreshold.min_gpu_memory_gb (resource_threshold self)));
               ("min_network_bandwidth_mbps",
                PyFloat (ResourceThreshold.min_network_bandwidth_mbps
                           (resource_threshold self))) ]) ]
  /\ (statuses_valid self ->
      count_where (node_status_is "idle") (PyDict.values (nodes self))
      + count_where (node_status_is "busy") (PyDict.values (nodes self))
      + count_where (node_status_is "learning") (PyDict.values (nodes self))
      + count_where (node_status_is "error") (PyDict.values (nodes self))
      = Z.of_nat (List.length (nodes self))).
Proof.
  split.
  - unfold get_swarm_status, model_dump, PyDict.len. now rewrite !sum_ones_count.
  - intros H. rewrite (status_partition _ H).
    unfold PyDict.values. now rewrite length_map.
Qed.

(** C7 as written fails: the node counts of the snapshot are those of
    idle, busy and learning only.  With one registered node in error they
    add up to 0 while [total_nodes] is 1. *)
Lemma swarm_status_sum_counterexample :
  ~ (forall self : SwarmCoordinator,
        statuses_valid self ->
        exists total idle busy learning,
          PyDict.get (get_swarm_status self) "total_nodes" = Some (PyNum (PyInt total))
          /\ PyDict.get (get_swarm_status self) "idle_nodes" = Some (PyNum (PyInt idle))
          /\ PyDict.get (get_swarm_status self) "busy_nodes" = Some (PyNum (PyInt busy))
          /\ PyDict.get (get_swarm_status self) "learning_nodes"
             = Some (PyNum (PyInt learning))
          /\ idle + busy + learning = total)
  /\ PyDict.keys (get_swarm_status coordinator_error_node)
     = [ "total_nodes"; "idle_nodes"; "busy_nodes"; "learning_nodes";
         "pending_tasks"; "running_tasks"; "completed_tasks"; "resource_threshold" ].
Proof.
  split; [|reflexivity].
  intros H. destruct (H coordinator_error_node) as (t & i & b & l & Ht & Hi & Hb & Hl & Hsum).
  - intros n [<-|[]]. right. right. right. reflexivity.
  - vm_compute in Ht, Hi, Hb, Hl.
    injection Ht as <-. injection Hi as <-. injection Hb as <-. injection Hl as <-.
    discriminate Hsum.
Qed.

(* ===================================================================== *)
(** * Booking discipline *)
(* ===================================================================== *)










(** The two halves of the discipline, taken together. *)
Lemma disciplined_halves self op :
  disciplined self op <-> submits_unassigned self op /\ registers_occupied self op.
Proof. destruct op; simpl; tauto. Qed.




Example coordinator_second_task_value :
  coordinator_second_task
  = mkCoordinator ResourceThreshold.default
                  [("node-1", busy_node_1)]
                  [("task-1", assigned_task_1); ("task-2", task_2)].
Proof. reflexivity. Qed.

Lemma coordinator_double_booked_reachable : reachable coordinator_double_booked.
Proof. repeat apply reachable_step. apply reachable_new. Qed.



(* ===================================================================== *)
(** * The monitoring loop *)
(* ===================================================================== *)

Module LoopFacts.
Import Loop ITreeNotations.

Local Open Scope itree_scope.

Section WithFaults.
Variable raises : site -> SwarmCoordinator -> option exn.

(** The [for] loop over the pending tasks does the matching of
    [assign_pending]. *)
Lemma for_each_assign (l : list LearningTask.t) (c : SwarmCoordinator) :
  for_each l
    (fun task =>
       guard raises (Assign (LearningTask.task_id task)) ;;;
       let* _ := call (fun c => _assign_nodes_to_task c (LearningTask.task_id task)) in
       ret tt) c
  ≈ Ret (match assign_pending raises l c with
         | (c1, None) => (c1, inr tt)
         | (c1, Some e) => (c1, inl e)
         end).
Proof.
  revert c. induction l as [|task l IH]; intros c; simpl.
  - reflexivity.
  - unfold bind at 1. unfold bind at 1. unfold guard, raise, ret.
    destruct (raises (Assign (LearningTask.task_id task)) c) as [e|].
    + rewrite !bind_ret_l. reflexivity.
    + rewrite bind_ret_l. unfold bind, call, ret.
      rewrite !bind_ret_l. apply IH.
Qed.

Lemma for_each_trace (l : list LearningTask.t) (c : SwarmCoordinator) :
  for_each l
    (fun task => emit (LogDebug (LearningTask.task_id task)
                                (LearningTask.assigned_nodes task))) c
  ≈ (trace_running l ;; Ret (c, inr tt)).
Proof.
  induction l as [|task l IH]; simpl.
  - unfold ret. now rewrite bind_ret_l.
  - unfold bind at 1. unfold emit at 1.
    rewrite !bind_bind. apply eutt_eq_bind. intros [].
    rewrite bind_ret_l. apply IH.
Qed.

Lemma _monitor_tasks_run (c : SwarmCoordinator) :
  _monitor_tasks raises c
  ≈ match raises Monitor c with
    | Some e => Ret (c, inl e)
    | None =>
        trace_running (filter (task_status_is "running") (PyDict.values (tasks c))) ;;
        Ret (c, inr tt)
    end.
Proof.
  unfold _monitor_tasks, bind at 1, guard, raise, ret.
  destruct (raises Monitor c) as [e|]; rewrite bind_ret_l; [reflexivity|].
  unfold bind, get_self. rewrite bind_ret_l. apply for_each_trace.
Qed.

Lemma try_block_run (c : SwarmCoordinator) :
  try_block raises c
  ≈ match scan raises c with
    | (c1, Some e) => Ret (c1, inl e)
    | (c1, None) =>
        trace_running (filter (task_status_is "running") (PyDict.values (tasks c1))) ;;
        ITree.trigger (Sleep 5%Q) ;;
        Ret (c1, inr tt)
    end.
Proof.
  unfold try_block, scan, bind at 1, guard at 1, raise, ret.
  destruct (raises ScanPending c) as [e|]; rewrite bind_ret_l; [reflexivity|].
  unfold bind at 1, get_self. rewrite bind_ret_l.
  unfold bind at 1. rewrite for_each_assign, bind_ret_l.
  destruct (assign_pending raises _ c) as [c1 [e|]]; [reflexivity|].
  unfold bind at 1. rewrite _monitor_tasks_run.
  destruct (raises Monitor c1) as [e|]; [now rewrite bind_ret_l|].
  rewrite bind_bind. apply eutt_eq_bind. intros [].
  rewrite bind_ret_l. unfold emit. reflexivity.
Qed.

(** One turn does what the specification says and ends normally. *)
Lemma iteration_run (c : SwarmCoordinator) :
  iteration raises c ≈ (c' <- iteration_spec raises c ;; Ret (c', inr tt)).
Proof.
  unfold iteration, try_except, iteration_spec. rewrite try_block_run.
  destruct (scan raises c) as [c1 [e|]].
  - rewrite bind_ret_l. unfold except_block, bind, emit.
    rewrite !bind_bind. apply eutt_eq_bind. intros [].
    rewrite !bind_ret_l, !bind_bind. apply eutt_eq_bind. intros [].
    now rewrite !bind_ret_l.
  - repeat setoid_rewrite bind_bind. repeat setoid_rewrite bind_ret_l.
    reflexivity.
Qed.

Lemma loop_step_run (c : SwarmCoordinator) :
  loop_step raises c ≈ (c' <- iteration_spec raises c ;; Ret (inl c')).
Proof.
  unfold loop_step. rewrite iteration_run, bind_bind.
  apply eutt_eq_bind. intros c'. now rewrite bind_ret_l.
Qed.

Lemma iteration_leaf (c : SwarmCoordinator) r :
  Leaf r (iteration raises c) -> exists c', r = (c', inr tt).
Proof.
  intros H.
  destruct (Leaf_eutt_l _ _ _ (iteration_run c) H) as (r' & Hr' & <-).
  apply Leaf_bind_inv in Hr'. destruct Hr' as (c' & _ & Hret).
  apply Leaf_Ret_inv in Hret. now exists c'.
Qed.

Lemma loop_step_leaf (c : SwarmCoordinator) r :
  Leaf r (loop_step raises c) -> exists c', r = inl c'.
Proof.
  intros H.
  destruct (Leaf_eutt_l _ _ _ (loop_step_run c) H) as (r' & Hr' & <-).
  apply Leaf_bind_inv in Hr'. destruct Hr' as (c' & _ & Hret).
  apply Leaf_Ret_inv in Hret. now exists c'.
Qed.

(** Without faults the scanning work is the matching of every pending
task. *)
Lemma assign_pending_none (l : list LearningTask.t) (c : SwarmCoordinator) :
  (forall s c', raises s c' = None) ->
  assign_pending raises l c = (assign_each l c, None).
Proof.
  intros Hnone. revert c.
  induction l as [|task l IH]; intros c; simpl; [reflexivity|].
  rewrite Hnone. apply IH.
Qed.

(** Whatever raises, the tasks matched in a turn are the pending tasks in
    registry order, all of them unless a matching step raised. *)
Lemma assign_pending_prefix (l : list LearningTask.t) (c : SwarmCoordinator) :
  exists done todo,
    l = done ++ todo
    /\ fst (assign_pending raises l c) = assign_each done c
    /\ (snd (assign_pending raises l c) = None -> todo = []).
Proof.
  revert c. induction l as [|task l IH]; intros c; simpl.
  - exists [], []. now repeat split.
  - destruct (raises (Assign (LearningTask.task_id task)) c) as [e|].
    + exists [], (task :: l). repeat split. discriminate.
    + destruct (IH (fst (_assign_nodes_to_task c (LearningTask.task_id task))))
        as (done & todo & -> & Hfst & Hsnd).
      exists (task :: done), todo. now repeat split.
Qed.

Lemma loop_unfold (c : SwarmCoordinator) :
  ITree.iter (loop_step raises) c
  ≈ (c' <- iteration_spec raises c ;; ITree.iter (loop_step raises) c').
Proof.
  rewrite unfold_iter at 1. rewrite loop_step_run, bind_bind.
  apply eutt_eq_bind. intros c'. now rewrite bind_ret_l, tau_eutt.
Qed.

(** The loop is the loop of the specification: each turn of the code is
    the turn described, and the next turn starts from the state it left. *)
Lemma loop_turns (c : SwarmCoordinator) :
  ITree.iter (loop_step raises) c ≈ turns raises c.
Proof.
  unfold turns. apply eutt_iter. intros c'. apply loop_step_run.
Qed.

Lemma run_continuous_learning_run (c : SwarmCoordinator) :
  run_continuous_learning raises c
  ≈ (ITree.trigger (LogInfo "Starting continuous learning coordinator") ;;
     turns raises c).
Proof.
  unfold run_continuous_learning. apply eutt_eq_bind. intros []. apply loop_turns.
Qed.

Lemma turns_unfold (c : SwarmCoordinator) :
  turns raises c ≈ (c' <- iteration_spec raises c ;; turns raises c').
Proof.
  unfold turns. rewrite unfold_iter at 1. rewrite bind_bind.
  apply eutt_eq_bind. intros c'. now rewrite bind_ret_l, tau_eutt.
Qed.

Lemma loop_no_leaf (c : SwarmCoordinator) (e : exn) :
  ~ Leaf e (run_continuous_learning raises c).
Proof.
  unfold run_continuous_learning. intros H.
  apply Leaf_bind_inv in H. destruct H as (u & _ & H).
  revert H.
  apply (Leaf_iter_inv (loop_step raises) c (fun _ => True) (fun _ => False));
    [|exact I].
  intros i r _ Hr. destruct (loop_step_leaf _ _ Hr) as (c' & ->).
  now constructor.
Qed.
End WithFaults.

(** C9: [run_continuous_learning] announces itself and then runs turn
    after turn, each from the state the turn before left.  A turn collects
    the pending tasks and calls [_assign_nodes_to_task] on each, in registry
    order; if nothing raises it traces the running tasks and sleeps 5.  An
    exception raised by the scanning work is caught: the turn logs it,
    sleeps 10 and ends normally, and the next turn follows, so that the
    exception reaches neither the loop nor its caller.  The loop never
    returns. *)
Theorem run_continuous_learning_spec
        (raises : site -> SwarmCoordinator -> option exn) (self : SwarmCoordinator) :
  run_continuous_learning raises self
  ≈ (ITree.trigger (LogInfo "Starting continuous learning coordinator") ;;
     c' <- iteration_spec raises self ;;
     turns raises c')
  /\ (forall c, turns raises c ≈ (c' <- iteration_spec raises c ;; turns raises c'))
  /\ (forall c1,
        scan raises self = (c1, None) ->
        run_continuous_learning raises self
        ≈ (ITree.trigger (LogInfo "Starting continuous learning coordinator") ;;
           trace_running (filter (task_status_is "running") (PyDict.values (tasks c1))) ;;
           ITree.trigger (Sleep 5%Q) ;;
           turns raises c1))
  /\ (forall c1 e,
        scan raises self = (c1, Some e) ->
        run_continuous_learning raises self
        ≈ (ITree.trigger (LogInfo "Starting continuous learning coordinator") ;;
           ITree.trigger (LogError ("Error in continuous learning loop: " ++ e)%string) ;;
           ITree.trigger (Sleep 10%Q) ;;
           turns raises c1))
  /\ iteration raises self ≈ (c' <- iteration_spec raises self ;; Ret (c', inr tt))
  /\ ((forall s c, raises s c = None) ->
      scan raises self
      = (assign_each (filter (task_status_is "pending") (PyDict.values (tasks self)))
                     self, None))
  /\ (exists done todo,
        filter (task_status_is "pending") (PyDict.values (tasks self)) = done ++ todo
        /\ (raises ScanPending self = None ->
            fst (scan raises self) = assign_each done self
            /\ (snd (scan raises self) = None -> todo = [])))
  /\ (forall c1,
        scan raises self = (c1, None) ->
        iteration raises self
        ≈ (trace_running (filter (task_status_is "running") (PyDict.values (tasks c1))) ;;
           ITree.trigger (Sleep 5%Q) ;;
           Ret (c1, inr tt)))
  /\ (forall c1 e,
        scan raises self = (c1, Some e) ->
        iteration raises self
        ≈ (ITree.trigger (LogError ("Error in continuous learning loop: " ++ e)%string) ;;
           ITree.trigger (Sleep 10%Q) ;;
           Ret (c1, inr tt)))
  /\ (forall r, Leaf r (iteration raises self) -> exists c', r = (c', inr tt))
  /\ ITree.iter (loop_step raises) self
     ≈ (c' <- iteration_spec raises self ;; ITree.iter (loop_step raises) c')
  /\ (forall e, ~ Leaf e (run_continuous_learning raises self)).
Proof.
  assert (Hrun : run_continuous_learning raises self
                 ≈ (ITree.trigger (LogInfo "Starting continuous learning coordinator") ;;
                    c' <- iteration_spec raises self ;;
                    turns raises c')).
  { rewrite run_continuous_learning_run. apply eutt_eq_bind. intros [].
    apply turns_unfold. }
  split; [exact Hrun|].
  split; [intros c; apply turns_unfold|].
  split.
  { intros c1 Hscan. rewrite Hrun. apply eutt_eq_bind. intros [].
    unfold iteration_spec. rewrite Hscan.
    repeat setoid_rewrite bind_bind. repeat setoid_rewrite bind_ret_l. reflexivity. }
  split.
  { intros c1 e Hscan. rewrite Hrun. apply eutt_eq_bind. intros [].
    unfold iteration_spec. rewrite Hscan.
    repeat setoid_rewrite bind_bind. repeat setoid_rewrite bind_ret_l. reflexivity. }
  split; [apply iteration_run|].
  split.
  { intros Hnone. unfold scan. rewrite (Hnone ScanPending self).
    rewrite assign_pending_none by exact Hnone. now rewrite Hnone. }
  split.
  { destruct (assign_pending_prefix raises
                (filter (task_status_is "pending") (PyDict.values (tasks self))) self)
      as (done & todo & Heq & Hfst & Hsnd).
    exists done, todo. split; [exact Heq|]. intros Hscan. unfold scan. rewrite Hscan.
    destruct (assign_pending raises _ self) as [c1 [e|]]; simpl in *.
    - split; [exact Hfst | discriminate].
    - destruct (raises Monitor c1); simpl; (split; [exact Hfst|]); auto. }
  split.
  { intros c1 Hscan. rewrite iteration_run. unfold iteration_spec. rewrite Hscan.
    repeat setoid_rewrite bind_bind. repeat setoid_rewrite bind_ret_l. reflexivity. }
  split.
  { intros c1 e Hscan. rewrite iteration_run. unfold iteration_spec. rewrite Hscan.
    repeat setoid_rewrite bind_bind. repeat setoid_rewrite bind_ret_l. reflexivity. }
  split; [apply iteration_leaf|].
  split; [apply loop_unfold | apply loop_no_leaf].
Qed.

(** The loop started while [task-1] is running and the monitoring step
    raises for it: the pending [task-2] has been tried (no node is idle),
    the error is logged, the loop sleeps 10 and goes on from the same
    state. *)
Lemma run_continuous_learning_spec_witness :
  run_continuous_learning monitor_fault coordinator_running
  ≈ (ITree.trigger (LogInfo "Starting continuous learning coordinator") ;;
     ITree.trigger
       (LogError "Error in continuous learning loop: progress unavailable") ;;
     ITree.trigger (Sleep 10%Q) ;;
     turns monitor_fault coordinator_running).
Proof.
  destruct (run_continuous_learning_spec monitor_fault coordinator_running)
    as (_ & _ & _ & Herr & _).
  apply (Herr coordinator_running "progress unavailable"). reflexivity.
Defined.

(** A turn in which nothing raises ends with the normal sleep. *)
Example quiet_turn :
  iteration no_fault coordinator_second_task
  ≈ (ITree.trigger (Sleep 5%Q) ;; Ret (coordinator_second_task, inr tt)).
Proof.
  rewrite iteration_run. unfold iteration_spec.
  replace (scan no_fault coordinator_second_task)
    with (coordinator_second_task, @None exn) by reflexivity.
  cbn. repeat setoid_rewrite bind_bind. repeat setoid_rewrite bind_ret_l.
  reflexivity.
Qed.
End LoopFacts.

(* ===================================================================== *)
(** * What every reachable state satisfies *)
(* ===================================================================== *)

Lemma satisfies_set_status n s r :
  satisfies (SwarmNode.set_status n s) r = satisfies n r.
Proof. reflexivity. Qed.

Lemma consistent_new thr :
  registries_consistent (new_coordinator thr) /\ admitted (new_coordinator thr).
Proof.
  repeat split; try constructor; intros k x [].
Qed.

Lemma consistent_register self node :
  registries_consistent self /\ admitted self ->
  registries_consistent (fst (register_node self node))
  /\ admitted (fst (register_node self node)).
Proof.
  intros [(Hwn & Hwt & Hkn & Hkt) Hadm]. unfold register_node.
  destruct (negb (_meets_threshold self node)) eqn:E; simpl; [now repeat split|].
  apply negb_false_iff in E.
  repeat split; simpl; try assumption.
  - now apply PyDictFacts.wf_set.
  - intros k n Hin. apply PyDictFacts.in_set in Hin.
    destruct Hin as [[-> ->]|Hin]; [reflexivity | now apply Hkn].
  - intros k n Hin. simpl in Hin. apply PyDictFacts.in_set in Hin.
    destruct Hin as [[-> ->]|Hin]; [exact E | now apply (Hadm k)].
Qed.

Lemma consistent_unregister self node_id :
  registries_consistent self /\ admitted self ->
  registries_consistent (fst (unregister_node self node_id))
  /\ admitted (fst (unregister_node self node_id)).
Proof.
  intros [(Hwn & Hwt & Hkn & Hkt) Hadm]. unfold unregister_node.
  destruct (PyDict.contains (nodes self) node_id); simpl; [|now repeat split].
  repeat split; simpl; try assumption.
  - now apply PyDictFacts.wf_del.
  - intros k n Hin. now apply Hkn, PyDictFacts.in_del with node_id.
  - intros k n Hin. simpl in Hin. apply (Hadm k).
    now apply PyDictFacts.in_del with node_id.
Qed.

Lemma consistent_store self task :
  registries_consistent self /\ admitted self ->
  registries_consistent (store_task self task) /\ admitted (store_task self task).
Proof.
  intros [(Hwn & Hwt & Hkn & Hkt) Hadm].
  repeat split; simpl; try assumption.
  - now apply PyDictFacts.wf_set.
  - intros k t Hin. simpl in Hin. apply PyDictFacts.in_set in Hin.
    destruct Hin as [[-> ->]|Hin]; [reflexivity | now apply Hkt].
Qed.

Lemma consistent_assign self task_id :
  registries_consistent self /\ admitted self ->
  registries_consistent (fst (_assign_nodes_to_task self task_id))
  /\ admitted (fst (_assign_nodes_to_task self task_id)).
Proof.
  intros Hinv.
  pose proof (_assign_nodes_to_task_outcome self task_id) as H.
  destruct H as [G | tk G S | tk k n rest G E]; simpl; try exact Hinv.
  destruct Hinv as [(Hwn & Hwt & Hkn & Hkt) Hadm].
  destruct (sort_head_best _ _ _ _ _ E) as [(Hin & _) _].
  repeat split; simpl.
  - now apply PyDictFacts.wf_set.
  - now apply PyDictFacts.wf_set.
  - intros k' n' Hin'. apply PyDictFacts.in_set in Hin'.
    destruct Hin' as [[-> ->]|Hin']; [now apply (Hkn k n) | now apply Hkn].
  - intros k' t' Hin'. simpl in Hin'. apply PyDictFacts.in_set in Hin'.
    destruct Hin' as [[-> ->]|Hin']; [|now apply Hkt].
    apply (Hkt task_id tk). now apply PyDictFacts.get_In.
  - intros k' n' Hin'. simpl in Hin'. apply PyDictFacts.in_set in Hin'.
    destruct Hin' as [[-> ->]|Hin']; [|now apply (Hadm k')].
    unfold _meets_threshold. simpl. rewrite satisfies_set_status.
    now apply (Hadm k n).
Qed.

(** Under unique keys, changing the threshold keeps the nodes that satisfy
    the new one, in order, and nothing else changes. *)
Lemma set_resource_threshold_eq self thr :
  PyDict.wf (nodes self) ->
  set_resource_threshold self thr
  = mkCoordinator thr (filter (fun kn => satisfies (snd kn) thr) (nodes self))
                  (tasks self).
Proof.
  intros Hwf.
  pose proof (set_resource_threshold_nodes self thr Hwf) as Hn.
  assert (Hf : tasks (set_resource_threshold self thr) = tasks self
               /\ resource_threshold (set_resource_threshold self thr) = thr).
  { unfold set_resource_threshold.
    change (fold_left _ ?ks ?c) with (unregister_all c ks).
    destruct (unregister_all_frame
                (map fst (filter (fun kn => negb (_meets_threshold
                   (mkCoordinator thr (nodes self) (tasks self)) (snd kn)))
                   (PyDict.items (nodes (mkCoordinator thr (nodes self) (tasks self))))))
                (mkCoordinator thr (nodes self) (tasks self))) as [Ht Hr].
    split; [exact Ht | exact Hr]. }
  destruct Hf as [Ht Hr].
  destruct (set_resource_threshold self thr) as [r ns ts]. simpl in *.
  now subst.
Qed.

Lemma consistent_set_resource_threshold self thr :
  registries_consistent self /\ admitted self ->
  registries_consistent (set_resource_threshold self thr)
  /\ admitted (set_resource_threshold self thr).
Proof.
  intros [(Hwn & Hwt & Hkn & Hkt) Hadm].
  rewrite set_resource_threshold_eq by exact Hwn.
  repeat split; simpl; try assumption.
  - now apply PyDictFacts.wf_filter.
  - intros k n Hin. apply filter_In in Hin. now apply Hkn.
  - intros k n Hin. simpl in Hin. apply filter_In in Hin. apply Hin.
Qed.

Lemma consistent_step self op :
  registries_consistent self /\ admitted self ->
  registries_consistent (apply_operation self op)
  /\ admitted (apply_operation self op).
Proof.
  intros Hinv. destruct op as [node|nid|task|tid|thr]; simpl.
  - now apply consistent_register.
  - now apply consistent_unregister.
  - now apply consistent_assign, consistent_store.
  - now apply consistent_assign.
  - now apply consistent_set_resource_threshold.
Qed.

Lemma reachable_consistent self :
  reachable self -> registries_consistent self /\ admitted self.
Proof.
  induction 1 as [thr | self op _ IH].
  - apply consistent_new.
  - now apply consistent_step.
Qed.

(** X1: in every state reached from an empty coordinator by the public
    operations, every registered node satisfies the threshold in force:
    admission checks it, a change of threshold evicts the nodes that fail,
    and assignment changes only a status. *)
Theorem reachable_admitted (self : SwarmCoordinator) (Hreach : reachable self) :
  forall k n,
    In (k, n) (PyDict.items (nodes self)) ->
    capacity_ge n (resource_threshold self).
Proof.
  intros k n Hin. apply satisfies_capacity_ge.
  exact (proj2 (reachable_consistent self Hreach) k n Hin).
Qed.

Lemma reachable_admitted_witness :
  capacity_ge busy_node_1 ResourceThreshold.default.
Proof.
  apply (reachable_admitted coordinator_double_booked
           (reachable_step _ (SubmitTask task_2)
              (reachable_step _ (RegisterNode valid_node)
                 (reachable_step _ (SubmitTask task_1)
                    (reachable_step _ (RegisterNode valid_node)
                       (reachable_new ResourceThreshold.default)))))
           "node-1" busy_node_1).
  left. reflexivity.
Defined.

(** X2: in every reachable state no key occurs twice in either registry,
    every node is stored under its own [node_id] and every task under its
    own [task_id]. *)
Theorem reachable_registries_consistent (self : SwarmCoordinator)
        (Hreach : reachable self) :
  PyDict.wf (nodes self)
  /\ PyDict.wf (tasks self)
  /\ (forall k n, PyDict.get (nodes self) k = Some n -> SwarmNode.node_id n = k)
  /\ (forall k task, PyDict.get (tasks self) k = Some task ->
        LearningTask.task_id task = k).
Proof.
  destruct (reachable_consistent self Hreach) as [(Hwn & Hwt & Hkn & Hkt) _].
  split; [exact Hwn|]. split; [exact Hwt|]. split.
  - intros k n G. now apply Hkn, PyDictFacts.get_In.
  - intros k t G. now apply Hkt, PyDictFacts.get_In.
Qed.

Lemma reachable_registries_consistent_witness :
  PyDict.wf (nodes coordinator_double_booked)
  /\ PyDict.wf (tasks coordinator_double_booked).
Proof.
  destruct (reachable_registries_consistent coordinator_double_booked
              (reachable_step _ (SubmitTask task_2)
                 (reachable_step _ (RegisterNode valid_node)
                    (reachable_step _ (SubmitTask task_1)
                       (reachable_step _ (RegisterNode valid_node)
                          (reachable_new ResourceThreshold.default))))))
    as (Hn & Ht & _).
  split; [exact Hn | exact Ht].
Defined.

(* ===================================================================== *)
(** * What the operations leave alone *)
(* ===================================================================== *)

Lemma assign_task_keys self task_id :
  PyDict.keys (tasks (fst (_assign_nodes_to_task self task_id)))
  = PyDict.keys (tasks self).
Proof.
  pose proof (_assign_nodes_to_task_outcome self task_id) as H.
  destruct H as [G | tk G S | tk k n rest G E]; simpl; try reflexivity.
  apply PyDictFacts.keys_set_present. unfold PyDict.contains. now rewrite G.
Qed.

Lemma unregister_all_in (ks : list string) (self : SwarmCoordinator) x :
  In x (nodes (unregister_all self ks)) -> In x (nodes self).
Proof.
  unfold unregister_all. revert self.
  induction ks as [|k ks IH]; intros self; simpl; [tauto|].
  intros H. apply IH in H. unfold unregister_node in H.
  destruct (PyDict.contains (nodes self) k); simpl in H; [|exact H].
  now apply PyDictFacts.in_del with k.
Qed.

(** X3: no operation removes a task.  Registration, unregistration,
    assignment and a change of threshold leave the ids of the stored tasks
    as they are, in order; a submission keeps them and adds its own id at
    the end unless it was there. *)
Theorem tasks_never_removed (self : SwarmCoordinator) (op : operation) :
  (forall k, PyDict.contains (tasks self) k = true ->
             PyDict.contains (tasks (apply_operation self op)) k = true)
  /\ match op with
     | SubmitTask task =>
         PyDict.keys (tasks (apply_operation self op))
         = if PyDict.contains (tasks self) (LearningTask.task_id task)
           then PyDict.keys (tasks self)
           else PyDict.keys (tasks self) ++ [LearningTask.task_id task]
     | _ => PyDict.keys (tasks (apply_operation self op)) = PyDict.keys (tasks self)
     end.
Proof.
  assert (Hkeys :
    match op with
    | SubmitTask task =>
        PyDict.keys (tasks (apply_operation self op))
        = if PyDict.contains (tasks self) (LearningTask.task_id task)
          then PyDict.keys (tasks self)
          else PyDict.keys (tasks self) ++ [LearningTask.task_id task]
    | _ => PyDict.keys (tasks (apply_operation self op)) = PyDict.keys (tasks self)
    end).
  { destruct op as [node|nid|task|tid|thr]; simpl.
    - unfold register_node. now destruct (negb (_meets_threshold self node)).
    - now rewrite (proj1 (unregister_node_frame self nid)).
    - rewrite assign_task_keys. simpl.
      destruct (PyDict.contains (tasks self) (LearningTask.task_id task)) eqn:E.
      + now apply PyDictFacts.keys_set_present.
      + now apply PyDictFacts.keys_set_absent.
    - apply assign_task_keys.
    - unfold set_resource_threshold.
      change (fold_left _ ?ks ?c) with (unregister_all c ks).
      now rewrite (proj1 (unregister_all_frame _ _)). }
  split; [|exact Hkeys].
  intros k Hk. apply PyDictFacts.contains_In_keys.
  apply PyDictFacts.contains_In_keys in Hk.
  destruct op as [node|nid|task|tid|thr]; try (rewrite Hkeys; exact Hk).
  rewrite Hkeys.
  destruct (PyDict.contains (tasks self) (LearningTask.task_id task));
    [exact Hk | apply in_or_app; now left].
Qed.

(** X4: with unique node keys, assigning or submitting a task neither adds
    nor removes a node and alters no capacity: the node keys stay as they
    are, in order, and every node afterwards is the node that was under the
    same key, up to its status. *)
Theorem assignment_changes_only_status (self : SwarmCoordinator) (op : operation)
        (Hwf : PyDict.wf (nodes self))
        (Hop : (exists task, op = SubmitTask task)
               \/ (exists task_id, op = AssignNodesToTask task_id)) :
  PyDict.keys (nodes (apply_operation self op)) = PyDict.keys (nodes self)
  /\ forall k n',
       PyDict.get (nodes (apply_operation self op)) k = Some n' ->
       exists n,
         PyDict.get (nodes self) k = Some n
         /\ n' = SwarmNode.set_status n (SwarmNode.status n').
Proof.
  assert (Hassign : forall c tid,
    PyDict.wf (nodes c) ->
    PyDict.keys (nodes (fst (_assign_nodes_to_task c tid))) = PyDict.keys (nodes c)
    /\ forall k n',
         PyDict.get (nodes (fst (_assign_nodes_to_task c tid))) k = Some n' ->
         exists n, PyDict.get (nodes c) k = Some n
                   /\ n' = SwarmNode.set_status n (SwarmNode.status n')).
  { intros c tid Hc.
    assert (Hsame : forall k n', PyDict.get (nodes c) k = Some n' ->
              exists n, PyDict.get (nodes c) k = Some n
                        /\ n' = SwarmNode.set_status n (SwarmNode.status n')).
    { intros k n' G. exists n'. split; [exact G | now destruct n']. }
    pose proof (_assign_nodes_to_task_outcome c tid) as H.
    destruct H as [G | tk G S | tk k n rest G E]; simpl; try (split; [reflexivity|exact Hsame]).
    destruct (sort_head_best _ _ _ _ _ E) as [(Hin & _) _].
    apply (PyDictFacts.In_get _ _ _ Hc) in Hin.
    split.
    - apply PyDictFacts.keys_set_present. unfold PyDict.contains. now rewrite Hin.
    - intros k' n' G'.
      destruct (String.eqb k' k) eqn:Ek.
      + apply String.eqb_eq in Ek. subst k'.
        rewrite PyDictFacts.get_set_same in G'. injection G' as <-.
        exists n. split; [exact Hin | reflexivity].
      + apply String.eqb_neq in Ek.
        rewrite PyDictFacts.get_set_other in G' by exact Ek.
        now apply Hsame. }
  destruct Hop as [[task ->]|[tid ->]]; simpl.
  - apply (Hassign (store_task self task)). exact Hwf.
  - now apply Hassign.
Qed.

Lemma assignment_changes_only_status_witness :
  PyDict.keys (nodes (apply_operation coordinator_one_node (SubmitTask task_1)))
  = ["node-1"].
Proof.
  apply (assignment_changes_only_status coordinator_one_node (SubmitTask task_1)
           (wf_singleton "node-1" valid_node)
           (or_introl (ex_intro _ task_1 eq_refl))).
Defined.

Lemma count_where_cons {A : Type} (p : A -> bool) (x : A) (l : list A) :
  count_where p (x :: l) = (if p x then 1 else 0) + count_where p l.
Proof.
  unfold count_where. simpl. destruct (p x); simpl List.length; lia.
Qed.

Lemma count_where_nonneg {A : Type} (p : A -> bool) (l : list A) :
  0 <= count_where p l.
Proof. unfold count_where. lia. Qed.

(** Writing [v] under [k] trades the count of the entry it replaces for the
    count of [v]. *)
Lemma count_where_set {V : Type} (p : V -> bool) (d : PyDict.t V) k v :
  count_where p (PyDict.values (PyDict.set d k v))
  + (match PyDict.get d k with Some n => if p n then 1 else 0 | None => 0 end)
  = count_where p (PyDict.values d) + (if p v then 1 else 0).
Proof.
  unfold PyDict.values.
  induction d as [|[k' v'] d IH]; simpl.
  - rewrite count_where_cons. unfold count_where. simpl. lia.
  - destruct (String.eqb k k'); simpl; rewrite !count_where_cons; lia.
Qed.

Lemma count_where_del {V : Type} (p : V -> bool) (d : PyDict.t V) k :
  count_where p (PyDict.values (PyDict.del d k)) <= count_where p (PyDict.values d).
Proof.
  unfold PyDict.values.
  induction d as [|[k' v'] d IH]; simpl; [lia|].
  destruct (String.eqb k k'); simpl; rewrite !count_where_cons;
    [pose proof (count_where_nonneg p (map snd d)) |]; destruct (p v'); lia.
Qed.

Lemma idle_after_assign self task_id :
  (forall k n, In (k, n) (nodes (fst (_assign_nodes_to_task self task_id))) ->
               SwarmNode.status n = "idle" -> In (k, n) (nodes self))
  /\ count_where (node_status_is "idle")
                 (PyDict.values (nodes (fst (_assign_nodes_to_task self task_id))))
     <= count_where (node_status_is "idle") (PyDict.values (nodes self)).
Proof.
  pose proof (_assign_nodes_to_task_outcome self task_id) as H.
  destruct H as [G | tk G S | tk k n rest G E]; simpl; try (split; [tauto | lia]).
  split.
  - intros k' n' Hin Hidle. apply PyDictFacts.in_set in Hin.
    destruct Hin as [[-> ->]|Hin]; [discriminate Hidle | exact Hin].
  - pose proof (count_where_set (node_status_is "idle") (nodes self) k
                  (SwarmNode.set_status n "busy")) as Hc.
    simpl in Hc.
    destruct (PyDict.get (nodes self) k) as [n0|];
      [destruct (node_status_is "idle" n0)|]; lia.
Qed.

(** X5: only registration makes a node idle.  After any other operation a
    node that is registered with status idle was registered, with the same
    descriptor, before; and the [idle_nodes] count of the snapshot has not
    grown.  The coordinator never releases a node it has made busy. *)
Theorem idle_only_by_registration (self : SwarmCoordinator) (op : operation) :
  match op with
  | RegisterNode _ => True
  | _ =>
      (forall k n,
          In (k, n) (PyDict.items (nodes (apply_operation self op))) ->
          SwarmNode.status n = "idle" ->
          In (k, n) (PyDict.items (nodes self)))
      /\ exists before after,
          snapshot_count (get_swarm_status self) "idle_nodes" = Some before
          /\ snapshot_count (get_swarm_status (apply_operation self op)) "idle_nodes"
             = Some after
          /\ after <= before
  end.
Proof.
  assert (Hsnap : forall c,
    snapshot_count (get_swarm_status c) "idle_nodes"
    = Some (count_where (node_status_is "idle") (PyDict.values (nodes c)))).
  { intros c. unfold snapshot_count, get_swarm_status. simpl.
    now rewrite sum_ones_count. }
  assert (Hun : forall c ks,
    count_where (node_status_is "idle") (PyDict.values (nodes (unregister_all c ks)))
    <= count_where (node_status_is "idle") (PyDict.values (nodes c))).
  { intros c ks. unfold unregister_all. revert c.
    induction ks as [|k ks IH]; intros c; simpl; [lia|].
    etransitivity; [apply IH|]. unfold unregister_node.
    destruct (PyDict.contains (nodes c) k); simpl; [apply count_where_del | lia]. }
  destruct op as [node|nid|task|tid|thr]; [exact I| | | |]; simpl.
  - split.
    + intros k n Hin _. apply (unregister_all_in [nid] self). exact Hin.
    + eexists; eexists. rewrite !Hsnap. split; [reflexivity|]. split; [reflexivity|].
      apply (Hun self [nid]).
  - destruct (idle_after_assign (store_task self task) (LearningTask.task_id task))
      as [Hin Hle].
    split; [exact Hin|].
    eexists; eexists. rewrite !Hsnap. split; [reflexivity|]. split; [reflexivity|].
    exact Hle.
  - destruct (idle_after_assign self tid) as [Hin Hle].
    split; [exact Hin|].
    eexists; eexists. rewrite !Hsnap. split; [reflexivity|]. split; [reflexivity|].
    exact Hle.
  - unfold set_resource_threshold.
    change (fold_left _ ?ks ?c) with (unregister_all c ks).
    split.
    + intros k n Hin _. apply unregister_all_in in Hin. exact Hin.
    + eexists; eexists. rewrite !Hsnap. split; [reflexivity|]. split; [reflexivity|].
      apply (Hun (mkCoordinator thr (nodes self) (tasks self))).
Qed.

(* ===================================================================== *)
(** * How the operations compose *)
(* ===================================================================== *)

Lemma snapshot_counts (c : SwarmCoordinator) :
  snapshot_count (get_swarm_status c) "total_nodes"
  = Some (Z.of_nat (PyDict.len (nodes c)))
  /\ snapshot_count (get_swarm_status c) "idle_nodes"
     = Some (count_where (node_status_is "idle") (PyDict.values (nodes c)))
  /\ snapshot_count (get_swarm_status c) "busy_nodes"
     = Some (count_where (node_status_is "busy") (PyDict.values (nodes c)))
  /\ snapshot_count (get_swarm_status c) "learning_nodes"
     = Some (count_where (node_status_is "learning") (PyDict.values (nodes c)))
  /\ (forall s, s = "pending" \/ s = "running" \/ s = "completed" ->
        snapshot_count (get_swarm_status c) (s ++ "_tasks")
        = Some (count_where (task_status_is s) (PyDict.values (tasks c)))).
Proof.
  unfold snapshot_count, get_swarm_status.
  split; [reflexivity|].
  do 3 (split; [simpl; now rewrite sum_ones_count|]).
  intros s [-> | [-> | ->]]; simpl; now rewrite sum_ones_count.
Qed.

(** X6: what a successful assignment does to the snapshot.  With unique
    node keys, [total_nodes] and [learning_nodes] keep their values,
    [idle_nodes] loses one and [busy_nodes] gains one; the task leaves the
    bucket it was counted in (pending, running or completed) and enters
    none, since assigned tasks are not counted. *)
Theorem assign_snapshot_effect (self : SwarmCoordinator) (task_id : string)
        (Hwf : PyDict.wf (nodes self))
        (Hok : snd (_assign_nodes_to_task self task_id) = true) :
  let after := fst (_assign_nodes_to_task self task_id) in
  exists task total idle busy learning,
    PyDict.get (tasks self) task_id = Some task
    /\ snapshot_count (get_swarm_status self) "total_nodes" = Some total
    /\ snapshot_count (get_swarm_status self) "idle_nodes" = Some idle
    /\ snapshot_count (get_swarm_status self) "busy_nodes" = Some busy
    /\ snapshot_count (get_swarm_status self) "learning_nodes" = Some learning
    /\ snapshot_count (get_swarm_status after) "total_nodes" = Some total
    /\ snapshot_count (get_swarm_status after) "idle_nodes" = Some (idle - 1)
    /\ snapshot_count (get_swarm_status after) "busy_nodes" = Some (busy + 1)
    /\ snapshot_count (get_swarm_status after) "learning_nodes" = Some learning
    /\ forall s, s = "pending" \/ s = "running" \/ s = "completed" ->
         exists before,
           snapshot_count (get_swarm_status self) (s ++ "_tasks") = Some before
           /\ snapshot_count (get_swarm_status after) (s ++ "_tasks")
              = Some (before - if task_status_is s task then 1 else 0).
Proof.
  intros after. subst after.
  pose proof (_assign_nodes_to_task_outcome self task_id) as H.
  destruct H as [G | tk G S | tk k n rest G E]; try discriminate Hok.
  destruct (sort_head_best _ _ _ _ _ E) as [(Hin & Hidle & _) _].
  apply (PyDictFacts.In_get _ _ _ Hwf) in Hin.
  cbn [fst].
  set (c' := mkCoordinator _ _ _).
  destruct (snapshot_counts self) as (Ht & Hi & Hb & Hl & Hk).
  destruct (snapshot_counts c') as (Ht' & Hi' & Hb' & Hl' & Hk').
  assert (Hcount : forall p b1 b2,
    p n = b1 -> p (SwarmNode.set_status n "busy") = b2 ->
    count_where p (PyDict.values (nodes c')) + (if b1 then 1 else 0)
    = count_where p (PyDict.values (nodes self)) + (if b2 then 1 else 0)).
  { intros p b1 b2 <- <-.
    pose proof (count_where_set p (nodes self) k
                  (SwarmNode.set_status n "busy")) as Hc.
    now rewrite Hin in Hc. }
  assert (Hst : forall s, node_status_is s n = String.eqb "idle" s).
  { intros s. unfold node_status_is. now rewrite Hidle. }
  exists tk. do 4 eexists.
  split; [exact G|].
  split; [exact Ht|].
  split; [exact Hi|]. split; [exact Hb|]. split; [exact Hl|].
  split.
  { rewrite Ht'. f_equal. f_equal. unfold c'. simpl.
    apply PyDictFacts.len_set_present. unfold PyDict.contains. now rewrite Hin. }
  split.
  { rewrite Hi'. f_equal.
    pose proof (Hcount (node_status_is "idle") true false (Hst "idle") eq_refl) as Hc.
    cbv iota in Hc. lia. }
  split.
  { rewrite Hb'. f_equal.
    pose proof (Hcount (node_status_is "busy") false true (Hst "busy") eq_refl) as Hc.
    cbv iota in Hc. lia. }
  split.
  { rewrite Hl'. f_equal.
    pose proof (Hcount (node_status_is "learning") false false (Hst "learning") eq_refl) as Hc.
    cbv iota in Hc. lia. }
  intros s Hs. eexists. split; [now apply Hk|].
  rewrite (Hk' s Hs). f_equal.
  pose proof (count_where_set (task_status_is s) (tasks self) task_id
                (LearningTask.set_assignment tk [SwarmNode.node_id n] "assigned")) as Hc.
  rewrite G in Hc.
  assert (Hnot : task_status_is s
                   (LearningTask.set_assignment tk [SwarmNode.node_id n] "assigned")
                 = false).
  { destruct Hs as [-> | [-> | ->]]; reflexivity. }
  rewrite Hnot in Hc.
  change (PyDict.set (tasks self) task_id
            (LearningTask.set_assignment tk [SwarmNode.node_id n] "assigned"))
    with (tasks c') in Hc.
  lia.
Qed.

Lemma assign_snapshot_effect_witness :
  snapshot_count
    (get_swarm_status (fst (_assign_nodes_to_task coordinator_two_nodes "task-1")))
    "idle_nodes" = Some 0
  /\ snapshot_count
       (get_swarm_status (fst (_assign_nodes_to_task coordinator_two_nodes "task-1")))
       "busy_nodes" = Some 2.
Proof.
  destruct (assign_snapshot_effect coordinator_two_nodes "task-1"
              wf_coordinator_two_nodes eq_refl)
    as (task & total & idle & busy & learning & _ & _ & Hi & Hb & _ & _ & Hi' & Hb' & _).
  vm_compute in Hi, Hb. injection Hi as <-. injection Hb as <-.
  split; [exact Hi' | exact Hb'].
Defined.

Lemma del_set_absent {V : Type} (d : PyDict.t V) k v :
  PyDict.get d k = None -> PyDict.del (PyDict.set d k v) k = d.
Proof.
  induction d as [|[k' v'] d IH]; simpl.
  - now rewrite String.eqb_refl.
  - destruct (String.eqb k k') eqn:E; [discriminate|].
    intros G. simpl. rewrite E. now rewrite IH.
Qed.

Lemma set_set {V : Type} (d : PyDict.t V) k v1 v2 :
  PyDict.set (PyDict.set d k v1) k v2 = PyDict.set d k v2.
Proof.
  induction d as [|[k' v'] d IH]; simpl.
  - now rewrite String.eqb_refl.
  - destruct (String.eqb k k') eqn:E; simpl; rewrite E; [reflexivity|].
    now rewrite IH.
Qed.

(** X7: registering a node whose id is not yet registered and then
    unregistering that id gives back the coordinator as it was, and the
    unregistration answers [True]. *)
Theorem register_unregister_roundtrip (self : SwarmCoordinator) (node : SwarmNode.t)
        (Hnew : PyDict.get (nodes self) (SwarmNode.node_id node) = None)
        (Hok : capacity_ge node (resource_threshold self)) :
  unregister_node (fst (register_node self node)) (SwarmNode.node_id node)
  = (self, true).
Proof.
  apply satisfies_capacity_ge in Hok.
  unfold register_node, _meets_threshold. rewrite Hok. simpl.
  unfold unregister_node, PyDict.contains. simpl.
  rewrite PyDictFacts.get_set_same, del_set_absent by exact Hnew.
  now destruct self.
Qed.

Lemma register_unregister_roundtrip_witness :
  unregister_node (fst (register_node coordinator valid_node)) "node-1"
  = (coordinator, true).
Proof.
  apply (register_unregister_roundtrip coordinator valid_node eq_refl).
  apply satisfies_capacity_ge. reflexivity.
Defined.

(** X8: the last registration wins.  When two descriptors carry the same
    id and the second is admitted, registering the first and then the second
    leaves the coordinator exactly as registering the second alone, whether
    or not the first was admitted; in particular registering a descriptor
    twice is registering it once. *)
Theorem register_last_write_wins (self : SwarmCoordinator) (n1 n2 : SwarmNode.t)
        (Hid : SwarmNode.node_id n1 = SwarmNode.node_id n2)
        (Hok : capacity_ge n2 (resource_threshold self)) :
  fst (register_node (fst (register_node self n1)) n2) = fst (register_node self n2).
Proof.
  apply satisfies_capacity_ge in Hok.
  unfold register_node at 2. unfold _meets_threshold.
  destruct (negb (satisfies n1 (resource_threshold self))); simpl; [reflexivity|].
  unfold register_node, _meets_threshold. simpl. rewrite Hok. simpl.
  now rewrite Hid, set_set.
Qed.

Lemma register_last_write_wins_witness :
  fst (register_node (fst (register_node coordinator valid_node)) busy_node_1)
  = fst (register_node coordinator busy_node_1).
Proof.
  apply (register_last_write_wins coordinator valid_node busy_node_1 eq_refl).
  apply satisfies_capacity_ge. reflexivity.
Defined.

(** X9: with unique node keys, unregistering an id a second time answers
    [False] and changes nothing. *)
Theorem unregister_twice (self : SwarmCoordinator) (node_id : string)
        (Hwf : PyDict.wf (nodes self)) :
  unregister_node (fst (unregister_node self node_id)) node_id
  = (fst (unregister_node self node_id), false).
Proof.
  assert (Hgone : PyDict.contains (nodes (fst (unregister_node self node_id))) node_id
                  = false).
  { unfold unregister_node.
    destruct (PyDict.contains (nodes self) node_id) eqn:E; simpl; [|exact E].
    unfold PyDict.contains. now rewrite PyDictFacts.get_del_same. }
  unfold unregister_node at 1 3. now rewrite Hgone.
Qed.

Lemma unregister_twice_witness :
  unregister_node (fst (unregister_node coordinator_assigned "node-1")) "node-1"
  = (fst (unregister_node coordinator_assigned "node-1"), false).
Proof.
  apply (unregister_twice coordinator_assigned "node-1"
           (wf_singleton "node-1" busy_node_1)).
Defined.

Lemma filter_filter_and {A : Type} (f g : A -> bool) (l : list A) :
  filter g (filter f l) = filter (fun x => f x && g x) l.
Proof.
  induction l as [|x l IH]; simpl; [reflexivity|].
  destruct (f x); simpl; [destruct (g x)|]; now rewrite IH.
Qed.

(** X10: with unique node keys, two changes of threshold in a row keep
    exactly the nodes that satisfy both thresholds, in registry order, and
    leave the second threshold in force.  So the surviving nodes do not
    depend on the order of the two changes, an evicted node does not come
    back when the threshold is lowered again, and repeating a change does
    nothing. *)
Theorem set_resource_threshold_twice (self : SwarmCoordinator)
        (t1 t2 : ResourceThreshold.t) (Hwf : PyDict.wf (nodes self)) :
  set_resource_threshold (set_resource_threshold self t1) t2
  = mkCoordinator t2
      (filter (fun kn => satisfies (snd kn) t1 && satisfies (snd kn) t2) (nodes self))
      (tasks self)
  /\ nodes (set_resource_threshold (set_resource_threshold self t1) t2)
     = nodes (set_resource_threshold (set_resource_threshold self t2) t1)
  /\ set_resource_threshold (set_resource_threshold self t1) t1
     = set_resource_threshold self t1.
Proof.
  assert (Htwice : forall a b,
    set_resource_threshold (set_resource_threshold self a) b
    = mkCoordinator b
        (filter (fun kn => satisfies (snd kn) a && satisfies (snd kn) b) (nodes self))
        (tasks self)).
  { intros a b. rewrite (set_resource_threshold_eq self a Hwf).
    rewrite set_resource_threshold_eq by (simpl; now apply PyDictFacts.wf_filter).
    simpl. now rewrite filter_filter_and. }
  split; [apply Htwice|]. split.
  - rewrite !Htwice. simpl. apply filter_ext. intros kn. apply andb_comm.
  - rewrite Htwice, (set_resource_threshold_eq self t1 Hwf). f_equal.
    apply filter_ext. intros kn. now destruct (satisfies (snd kn) t1).
Qed.

Lemma set_resource_threshold_twice_witness :
  nodes (set_resource_threshold
           (set_resource_threshold coordinator_assigned (ResourceThreshold.mk 32 16 0 10))
           ResourceThreshold.default)
  = [].
Proof.
  destruct (set_resource_threshold_twice coordinator_assigned
              (ResourceThreshold.mk 32 16 0 10) ResourceThreshold.default
              (wf_singleton "node-1" busy_node_1)) as (-> & _).
  reflexivity.
Defined.

Lemma capacity_ge_monotone n r r' :
  capacity_ge n r -> threshold_le r' r -> capacity_ge n r'.
Proof.
  intros (H1 & H2 & H3 & H4) (L1 & L2 & L3 & L4).
  repeat split.
  - now apply Qle_trans with (ResourceThreshold.min_memory_gb r).
  - lia.
  - now apply Qle_trans with (ResourceThreshold.min_gpu_memory_gb r).
  - now apply Qle_trans with (ResourceThreshold.min_network_bandwidth_mbps r).
Qed.

(** X11: in every reachable state, replacing the threshold by one that is
    field-wise lower or equal evicts no node: the registry and the tasks
    stay as they are and only the threshold changes. *)
Theorem lowering_threshold_keeps_nodes (self : SwarmCoordinator)
        (t2 : ResourceThreshold.t)
        (Hreach : reachable self)
        (Hle : threshold_le t2 (resource_threshold self)) :
  set_resource_threshold self t2 = mkCoordinator t2 (nodes self) (tasks self).
Proof.
  destruct (reachable_consistent self Hreach) as [(Hwn & _) Hadm].
  rewrite set_resource_threshold_eq by exact Hwn. f_equal.
  apply forallb_filter_id, forallb_forall. intros [k n] Hin. simpl.
  apply satisfies_capacity_ge.
  apply capacity_ge_monotone with (resource_threshold self); [|exact Hle].
  apply satisfies_capacity_ge. exact (Hadm k n Hin).
Qed.

Lemma lowering_threshold_keeps_nodes_witness :
  nodes (set_resource_threshold coordinator_double_booked (ResourceThreshold.mk 2 1 0 5))
  = [("node-1", busy_node_1)].
Proof.
  rewrite (lowering_threshold_keeps_nodes coordinator_double_booked
             (ResourceThreshold.mk 2 1 0 5)
             (reachable_step _ (SubmitTask task_2)
                (reachable_step _ (RegisterNode valid_node)
                   (reachable_step _ (SubmitTask task_1)
                      (reachable_step _ (RegisterNode valid_node)
                         (reachable_new ResourceThreshold.default)))))).
  - reflexivity.
  - repeat split; simpl; try lia; unfold Qle; simpl; lia.
Defined.

(** X12: requirements are monotone.  A node that is a candidate for a task
    is a candidate for every task that requires field-wise no more; so when
    the assignment of a stored task succeeds, the assignment of a stored
    task requiring no more succeeds in the same state. *)
Theorem lighter_task_is_matched (self : SwarmCoordinator)
        (task_id task_id' : string) (task task' : LearningTask.t)
        (Htask : PyDict.get (tasks self) task_id = Some task)
        (Htask' : PyDict.get (tasks self) task_id' = Some task')
        (Hle : threshold_le (LearningTask.required_resources task')
                            (LearningTask.required_resources task)) :
  (forall k n, candidate self task k n -> candidate self task' k n)
  /\ (snd (_assign_nodes_to_task self task_id) = true ->
      snd (_assign_nodes_to_task self task_id') = true).
Proof.
  assert (Hmono : forall k n, candidate self task k n -> candidate self task' k n).
  { intros k n (Hin & Hidle & Hcap). repeat split; try assumption.
    - apply (capacity_ge_monotone _ _ _ Hcap Hle).
    - apply (capacity_ge_monotone _ _ _ Hcap Hle).
    - apply (capacity_ge_monotone _ _ _ Hcap Hle).
    - apply (capacity_ge_monotone _ _ _ Hcap Hle). }
  split; [exact Hmono|]. intros Hok.
  pose proof (_assign_nodes_to_task_outcome self task_id) as H.
  inversion H as [G Heq | tk G S Heq | tk k n rest G E Heq];
    rewrite <- Heq in Hok; try discriminate Hok.
  assert (tk = task) by congruence. subst tk.
  destruct (sort_head_best _ _ _ _ _ E) as [Hc _].
  destruct (assign_success self task_id' task' Htask'
              (ex_intro _ k (ex_intro _ n (Hmono k n Hc))))
    as (k' & n' & rest' & _ & ->).
  reflexivity.
Qed.

Lemma lighter_task_is_matched_witness :
  snd (_assign_nodes_to_task coordinator_waiting "task-3") = true.
Proof.
  apply (lighter_task_is_matched coordinator_waiting "task-1" "task-3"
           task_1 light_task eq_refl eq_refl).
  - repeat split; simpl; try lia; unfold Qle; simpl; lia.
  - reflexivity.
Defined.

Section SortedFacts.
Context {A : Type} (key : A -> Q * Z).

Lemma insert_desc_perm (x : A) (l : list A) :
  Permutation (x :: l) (insert_desc key x l).
Proof.
  induction l as [|y l IH]; simpl; [reflexivity|].
  destruct (tuple_lt (key x) (key y)); [|reflexivity].
  rewrite perm_swap. now apply perm_skip.
Qed.

Lemma insert_desc_sorted (x : A) (l : list A) :
  StronglySorted (fun a b => lex_le (key b) (key a)) l ->
  StronglySorted (fun a b => lex_le (key b) (key a)) (insert_desc key x l).
Proof.
  induction l as [|y l IH]; intros Hs; simpl.
  - repeat constructor.
  - inversion Hs as [|? ? Hs' Hall]; subst.
    destruct (tuple_lt (key x) (key y)) eqn:E.
    + constructor; [now apply IH|].
      apply (Permutation_Forall (insert_desc_perm x l)).
      constructor; [now apply tuple_lt_true | exact Hall].
    + apply tuple_lt_false in E. constructor; [exact Hs|].
      constructor; [exact E|].
      apply Forall_impl with (2 := Hall).
      intros z Hz. now apply lex_le_trans with (key y).
Qed.
End SortedFacts.

(** X13: the sort of the candidates is a sort.  The sorted list holds the
    same elements as the input, each as often, and is in non-increasing
    order of the key (memory first, then cores). *)
Theorem sort_desc_sorted {A : Type} (key : A -> Q * Z) (l : list A) :
  Permutation l (sort_desc key l)
  /\ StronglySorted (fun a b => lex_le (key b) (key a)) (sort_desc key l).
Proof.
  induction l as [|x l [IHp IHs]]; simpl.
  - split; constructor.
  - split.
    + rewrite <- insert_desc_perm. now apply perm_skip.
    + now apply insert_desc_sorted.
Qed.

Lemma exclusive_counts {A : Type} (p q r : A -> bool) (l : list A) :
  (forall x, In x l -> (p x && q x = false) /\ (p x && r x = false)
                       /\ (q x && r x = false)) ->
  count_where p l + count_where q l + count_where r l <= Z.of_nat (List.length l).
Proof.
  induction l as [|x l IH]; intros H; [unfold count_where; simpl; lia|].
  rewrite !count_where_cons.
  specialize (IH (fun y Hy => H y (or_intror Hy))).
  destruct (H x (or_introl eq_refl)) as (H1 & H2 & H3).
  cbn [List.length]. rewrite Nat2Z.inj_succ.
  destruct (p x), (q x), (r x); cbn [andb] in H1, H2, H3; try discriminate; lia.
Qed.

Lemma eqb_exclusive (s a b : string) :
  a <> b -> String.eqb s a && String.eqb s b = false.
Proof.
  intros Hne. destruct (String.eqb_spec s a) as [->|]; [|reflexivity].
  simpl. apply String.eqb_neq. exact Hne.
Qed.

(** X14: whatever the statuses are, the counts of a snapshot never exceed
    what they count: the idle, busy and learning nodes together are at most
    [total_nodes], and the pending, running and completed tasks together at
    most the number of stored tasks; no count is negative. *)
Theorem snapshot_counts_bounded (self : SwarmCoordinator) :
  exists total idle busy learning pending running completed,
    snapshot_count (get_swarm_status self) "total_nodes" = Some total
    /\ snapshot_count (get_swarm_status self) "idle_nodes" = Some idle
    /\ snapshot_count (get_swarm_status self) "busy_nodes" = Some busy
    /\ snapshot_count (get_swarm_status self) "learning_nodes" = Some learning
    /\ snapshot_count (get_swarm_status self) "pending_tasks" = Some pending
    /\ snapshot_count (get_swarm_status self) "running_tasks" = Some running
    /\ snapshot_count (get_swarm_status self) "completed_tasks" = Some completed
    /\ total = Z.of_nat (PyDict.len (nodes self))
    /\ 0 <= idle /\ 0 <= busy /\ 0 <= learning
    /\ idle + busy + learning <= total
    /\ 0 <= pending /\ 0 <= running /\ 0 <= completed
    /\ pending + running + completed <= Z.of_nat (PyDict.len (tasks self)).
Proof.
  destruct (snapshot_counts self) as (Ht & Hi & Hb & Hl & Hk).
  do 7 eexists.
  split; [exact Ht|]. split; [exact Hi|]. split; [exact Hb|]. split; [exact Hl|].
  split; [exact (Hk "pending" (or_introl eq_refl))|].
  split; [exact (Hk "running" (or_intror (or_introl eq_refl)))|].
  split; [exact (Hk "completed" (or_intror (or_intror eq_refl)))|].
  split; [reflexivity|].
  repeat (split; [apply count_where_nonneg|]).
  split.
  - unfold PyDict.len. rewrite <- (length_map snd (nodes self)).
    apply exclusive_counts. intros n _. unfold node_status_is.
    repeat split; apply eqb_exclusive; discriminate.
  - repeat (split; [apply count_where_nonneg|]).
    unfold PyDict.len. rewrite <- (length_map snd (tasks self)).
    apply exclusive_counts. intros t _. unfold task_status_is.
    repeat split; apply eqb_exclusive; discriminate.
Qed.

(* ===================================================================== *)
(** * Consequences for the matching *)
(* ===================================================================== *)

Lemma candidate_after_assign self task_id task k n :
  candidate (fst (_assign_nodes_to_task self task_id)) task k n ->
  candidate self task k n.
Proof.
  intros (Hin & Hidle & Hcap). repeat split; try assumption; try apply Hcap.
  now apply (proj1 (idle_after_assign self task_id)).
Qed.

Lemma pending_before_assign self task_id k task :
  In (k, task) (tasks (fst (_assign_nodes_to_task self task_id))) ->
  LearningTask.status task = "pending" ->
  In (k, task) (tasks self).
Proof.
  pose proof (_assign_nodes_to_task_outcome self task_id) as H.
  destruct H as [G | tk G S | tk k0 n rest G E]; simpl; try tauto.
  intros Hin Hp. apply PyDictFacts.in_set in Hin.
  destruct Hin as [[-> ->]|Hin]; [discriminate Hp | exact Hin].
Qed.

Lemma assign_each_reachable (l : list LearningTask.t) (self : SwarmCoordinator) :
  reachable self -> reachable (Loop.assign_each l self).
Proof.
  unfold Loop.assign_each. revert self.
  induction l as [|task l IH]; intros self Hr; simpl; [exact Hr|].
  apply IH. exact (reachable_step self (AssignNodesToTask (LearningTask.task_id task)) Hr).
Qed.

(** Matching the tasks of [l] one after the other leaves no pending task
    with a candidate, if the pending tasks outside [l] had none. *)
Lemma assign_each_saturates (l : list LearningTask.t) (self : SwarmCoordinator) :
  reachable self ->
  (forall k task,
      In (k, task) (tasks self) -> LearningTask.status task = "pending" ->
      In task l \/ forall k' n, ~ candidate self task k' n) ->
  ~ matchable (Loop.assign_each l self).
Proof.
  unfold Loop.assign_each. revert self.
  induction l as [|t0 l IH]; intros self Hr Hcov; simpl.
  - intros (k & task & k' & n & Hin & Hp & Hc).
    destruct (Hcov k task Hin Hp) as [[]|Hno]. now apply (Hno k' n).
  - apply IH.
    + exact (reachable_step self (AssignNodesToTask (LearningTask.task_id t0)) Hr).
    + intros k task Hin Hp.
      pose proof (pending_before_assign _ _ _ _ Hin Hp) as Hin0.
      destruct (Hcov k task Hin0 Hp) as [[<-|Hl]|Hno].
      * right.
        destruct (reachable_consistent self Hr) as [(_ & Hwt & _ & Hkt) _].
        pose proof (Hkt k t0 Hin0) as Hid. subst k.
        pose proof (PyDictFacts.In_get _ _ _ Hwt Hin0) as G.
        pose proof (_assign_nodes_to_task_outcome self (LearningTask.task_id t0)) as H.
        inversion H as [G' Heq | tk G' S Heq | tk k0 n0 rest G' E Heq].
        -- congruence.
        -- assert (tk = t0) by congruence. subst tk.
           intros k' n Hc.
           exact (proj1 (suitable_nodes_empty _ _) S k' n Hc).
        -- exfalso. assert (tk = t0) by congruence. subst tk.
           destruct (reachable_consistent _
                       (reachable_step self
                          (AssignNodesToTask (LearningTask.task_id t0)) Hr))
             as [(_ & Hwt' & _) _].
           simpl in Hwt'.
           pose proof (PyDictFacts.In_get _ _ _ Hwt' Hin) as G1.
           rewrite <- Heq in G1. simpl in G1.
           rewrite PyDictFacts.get_set_same in G1.
           injection G1 as G1. rewrite <- G1 in Hp. discriminate Hp.
      * now left.
      * right. intros k' n Hc. apply (Hno k' n).
        now apply candidate_after_assign with (LearningTask.task_id t0).
Qed.

(** The leaves of the pieces of a turn. *)
Lemma trace_running_leaf (l : list LearningTask.t) : Leaf tt (Loop.trace_running l).
Proof.
  induction l as [|task l IH]; simpl.
  - apply Leaf_Ret.
  - apply Leaf_bind with tt; [|exact IH].
    apply Leaf_Vis with tt. apply Leaf_Ret.
Qed.

Lemma iteration_spec_leaf raises self c :
  Leaf c (Loop.iteration_spec raises self) <-> c = fst (Loop.scan raises self).
Proof.
  unfold Loop.iteration_spec.
  destruct (Loop.scan raises self) as [c1 [e|]]; simpl; split.
  - intros H. apply Leaf_bind_inv in H. destruct H as (u & _ & H).
    apply Leaf_bind_inv in H. destruct H as (v & _ & H).
    now apply Leaf_Ret_inv in H.
  - intros ->. apply Leaf_bind with tt; [apply Leaf_Vis with tt, Leaf_Ret|].
    apply Leaf_bind with tt; [apply Leaf_Vis with tt, Leaf_Ret|]. apply Leaf_Ret.
  - intros H. apply Leaf_bind_inv in H. destruct H as (u & _ & H).
    apply Leaf_bind_inv in H. destruct H as (v & _ & H).
    now apply Leaf_Ret_inv in H.
  - intros ->. apply Leaf_bind with tt; [apply trace_running_leaf|].
    apply Leaf_bind with tt; [apply Leaf_Vis with tt, Leaf_Ret|]. apply Leaf_Ret.
Qed.

(** The [try] block ends normally in [c1] exactly when the scanning work
    leaves [c1] without raising. *)
Lemma try_block_leaf raises self c1 :
  Leaf (c1, inr tt) (Loop.try_block raises self)
  <-> Loop.scan raises self = (c1, None).
Proof.
  rewrite (LoopFacts.try_block_run raises self).
  destruct (Loop.scan raises self) as [c' [e|]]; split.
  - intros H. apply Leaf_Ret_inv in H. discriminate H.
  - discriminate.
  - intros H. apply Leaf_bind_inv in H. destruct H as (u & _ & H).
    apply Leaf_bind_inv in H. destruct H as (v & _ & H).
    apply Leaf_Ret_inv in H. now injection H as ->.
  - intros [= ->]. apply Leaf_bind with tt; [apply trace_running_leaf|].
    apply Leaf_bind with tt; [apply Leaf_Vis with tt, Leaf_Ret|]. apply Leaf_Ret.
Qed.

(** The same for a whole turn, which always ends normally. *)
Lemma iteration_leaf_scan raises self c1 r :
  Leaf (c1, r) (Loop.iteration raises self)
  <-> c1 = fst (Loop.scan raises self) /\ r = inr tt.
Proof.
  rewrite (LoopFacts.iteration_run raises self). split.
  - intros H. apply Leaf_bind_inv in H. destruct H as (c' & Hc' & H).
    apply Leaf_Ret_inv in H. injection H as -> ->.
    split; [now apply iteration_spec_leaf | reflexivity].
  - intros [-> ->]. apply Leaf_bind with (fst (Loop.scan raises self)).
    + now apply iteration_spec_leaf.
    + apply Leaf_Ret.
Qed.

(** What the scanning work of a quiet turn reaches. *)
Lemma scan_saturates (self : SwarmCoordinator)
        (raises : Loop.site -> SwarmCoordinator -> option Loop.exn)
        (c1 : SwarmCoordinator)
        (Hreach : reachable self)
        (Hscan : Loop.scan raises self = (c1, None)) :
  c1 = Loop.assign_each (pending_tasks self) self
  /\ ~ matchable c1
  /\ Loop.assign_each (pending_tasks c1) c1 = c1.
Proof.
  assert (Hc1 : c1 = Loop.assign_each (pending_tasks self) self).
  { unfold Loop.scan in Hscan.
    destruct (raises Loop.ScanPending self); [discriminate|].
    destruct (LoopFacts.assign_pending_prefix raises
                (filter (task_status_is "pending") (PyDict.values (tasks self))) self)
      as (done & todo & Heq & Hfst & Hsnd).
    destruct (Loop.assign_pending raises _ self) as [c' [e|]]; [discriminate|].
    simpl in Hfst, Hsnd. rewrite (Hsnd eq_refl), app_nil_r in Heq.
    destruct (raises Loop.Monitor c'); [discriminate|].
    injection Hscan as <-. unfold pending_tasks. now rewrite Heq. }
  assert (Hsat : ~ matchable c1).
  { rewrite Hc1. apply assign_each_saturates; [exact Hreach|].
    intros k task Hin Hp. left. unfold pending_tasks.
    apply filter_In. split.
    - apply in_map_iff. now exists (k, task).
    - unfold task_status_is. now rewrite Hp. }
  split; [exact Hc1|]. split; [exact Hsat|].
  assert (Hr1 : reachable c1) by (rewrite Hc1; now apply assign_each_reachable).
  destruct (reachable_consistent c1 Hr1) as [(_ & Hwt & _ & Hkt) _].
  assert (Hfix : forall l,
    (forall t, In t l -> In t (pending_tasks c1)) -> Loop.assign_each l c1 = c1).
  { unfold Loop.assign_each.
    induction l as [|t l IH]; intros Hl; simpl; [reflexivity|].
    assert (Ht : In t (pending_tasks c1)) by (apply Hl; now left).
    unfold pending_tasks in Ht. apply filter_In in Ht. destruct Ht as [Hin Hp].
    apply in_map_iff in Hin. destruct Hin as ([k t'] & Heq & Hin).
    simpl in Heq. subst t'.
    pose proof (Hkt k t Hin) as Hid.
    pose proof (PyDictFacts.In_get _ _ _ Hwt Hin) as G. rewrite <- Hid in G.
    rewrite (assign_without_candidate c1 _ t G).
    - simpl. apply IH. intros t' Ht'. apply Hl. now right.
    - intros k' n Hc. apply Hsat. exists k, t, k', n.
      split; [exact Hin|]. split; [|exact Hc].
      unfold task_status_is in Hp. now apply String.eqb_eq in Hp. }
  apply Hfix. auto.
Qed.


(** X15: a turn of the loop in which nothing raises matches all that can be
    matched.  From a reachable state, when the [try] block of
    [run_continuous_learning] ends normally, the state it leaves is the one
    obtained by assigning every pending task in registry order; it has no
    pending task for which an idle node with enough capacity is registered,
    and matching its pending tasks once more changes nothing. *)
Theorem quiet_turn_saturates (self : SwarmCoordinator)
        (raises : Loop.site -> SwarmCoordinator -> option Loop.exn)
        (c1 : SwarmCoordinator)
        (Hreach : reachable self)
        (Hturn : Leaf (c1, inr tt) (Loop.try_block raises self)) :
  c1 = Loop.assign_each (pending_tasks self) self
  /\ ~ matchable c1
  /\ Loop.assign_each (pending_tasks c1) c1 = c1.
Proof.
  apply scan_saturates with raises; [exact Hreach|].
  now apply try_block_leaf.
Qed.

(** [task-1] waits while [node-1] and [node-3] are idle: the turn gives it
    [node-1], and nothing is left to match. *)
Lemma quiet_turn_saturates_witness :
  Loop.assign_each (pending_tasks coordinator_late_nodes) coordinator_late_nodes
  <> coordinator_late_nodes
  /\ ~ matchable
       (Loop.assign_each (pending_tasks coordinator_late_nodes) coordinator_late_nodes).
Proof.
  split; [discriminate|].
  apply (quiet_turn_saturates coordinator_late_nodes Loop.no_fault
           (Loop.assign_each (pending_tasks coordinator_late_nodes)
                             coordinator_late_nodes)
           (reachable_step _ (RegisterNode small_node)
              (reachable_step _ (RegisterNode valid_node)
                 (reachable_step _ (SubmitTask task_1)
                    (reachable_new ResourceThreshold.default))))).
  apply try_block_leaf. reflexivity.
Defined.

(** X16: assigning a task again strands its node.  From a reachable state,
    when two assignments of the same task in a row succeed, the second
    picks another node; the task then lists the second node only, while the
    first stays registered with status busy. *)
Theorem reassignment_strands_node (self : SwarmCoordinator) (task_id : string)
        (Hreach : reachable self)
        (Hok1 : snd (_assign_nodes_to_task self task_id) = true)
        (Hok2 : snd (_assign_nodes_to_task (fst (_assign_nodes_to_task self task_id))
                                           task_id) = true) :
  let c1 := fst (_assign_nodes_to_task self task_id) in
  let c2 := fst (_assign_nodes_to_task c1 task_id) in
  exists k1 k2 task1 task2 n1,
    k1 <> k2
    /\ PyDict.get (tasks c1) task_id = Some task1
    /\ LearningTask.assigned_nodes task1 = [k1]
    /\ PyDict.get (tasks c2) task_id = Some task2
    /\ LearningTask.assigned_nodes task2 = [k2]
    /\ PyDict.get (nodes c2) k1 = Some n1
    /\ SwarmNode.status n1 = "busy".
Proof.
  intros c1 c2. subst c2 c1.
  destruct (reachable_consistent self Hreach) as [(Hwn & _ & Hkn & _) _].
  destruct (reachable_consistent _
              (reachable_step self (AssignNodesToTask task_id) Hreach))
    as [(Hwn1 & _ & Hkn1 & _) _].
  simpl in Hwn1, Hkn1.
  pose proof (_assign_nodes_to_task_outcome self task_id) as H1.
  destruct H1 as [G | tk G S | tk k1 n1 rest1 G E1]; try discriminate Hok1.
  cbn [fst] in *.
  set (c1 := mkCoordinator _ _ _) in *.
  pose proof (_assign_nodes_to_task_outcome c1 task_id) as H2.
  destruct H2 as [G2 | tk2 G2 S2 | tk2 k2 n2 rest2 G2 E2]; try discriminate Hok2.
  cbn [fst].
  destruct (sort_head_best _ _ _ _ _ E1) as [(Hin1 & _) _].
  destruct (sort_head_best _ _ _ _ _ E2) as [(Hin2 & Hidle2 & _) _].
  assert (Hg1 : PyDict.get (nodes c1) k1 = Some (SwarmNode.set_status n1 "busy"))
    by apply PyDictFacts.get_set_same.
  assert (Hne : k1 <> k2).
  { intros <-. apply (PyDictFacts.In_get _ _ _ Hwn1) in Hin2.
    rewrite Hg1 in Hin2. injection Hin2 as <-. discriminate Hidle2. }
  exists k1, k2. do 3 eexists.
  split; [exact Hne|].
  split; [apply PyDictFacts.get_set_same|].
  split; [simpl; f_equal; now apply Hkn|].
  split; [apply PyDictFacts.get_set_same|].
  split; [simpl; f_equal; now apply Hkn1|].
  split.
  - simpl. rewrite PyDictFacts.get_set_other by exact Hne. exact Hg1.
  - reflexivity.
Qed.

Lemma reassignment_strands_node_witness :
  exists k1 k2 n1,
    k1 <> k2
    /\ PyDict.get
         (nodes (fst (_assign_nodes_to_task
                        (fst (_assign_nodes_to_task coordinator_late_nodes "task-1"))
                        "task-1"))) k1 = Some n1
    /\ SwarmNode.status n1 = "busy".
Proof.
  destruct (reassignment_strands_node coordinator_late_nodes "task-1"
              (reachable_step _ (RegisterNode small_node)
                 (reachable_step _ (RegisterNode valid_node)
                    (reachable_step _ (SubmitTask task_1)
                       (reachable_new ResourceThreshold.default))))
              eq_refl eq_refl)
    as (k1 & k2 & t1 & t2 & n1 & Hne & _ & _ & _ & _ & Hn & Hb).
  exists k1, k2, n1. split; [exact Hne|]. split; [exact Hn | exact Hb].
Defined.

Lemma assign_node_keys self task_id :
  PyDict.keys (nodes (fst (_assign_nodes_to_task self task_id)))
  = PyDict.keys (nodes self)
  /\ resource_threshold (fst (_assign_nodes_to_task self task_id))
     = resource_threshold self.
Proof.
  pose proof (_assign_nodes_to_task_outcome self task_id) as H.
  destruct H as [G | tk G S | tk k n rest G E]; simpl; try (split; reflexivity).
  split; [|reflexivity].
  destruct (sort_head_best _ _ _ _ _ E) as [(Hin & _) _].
  apply PyDictFacts.keys_set_present, PyDictFacts.contains_In_keys.
  now apply (in_map fst) in Hin.
Qed.

(** The scanning work changes no key and not the threshold. *)
Lemma scan_keeps_registries
        (raises : Loop.site -> SwarmCoordinator -> option Loop.exn)
        (self : SwarmCoordinator) :
  PyDict.keys (nodes (fst (Loop.scan raises self))) = PyDict.keys (nodes self)
  /\ PyDict.keys (tasks (fst (Loop.scan raises self))) = PyDict.keys (tasks self)
  /\ resource_threshold (fst (Loop.scan raises self)) = resource_threshold self.
Proof.
  assert (Heach : forall l c,
    PyDict.keys (nodes (Loop.assign_each l c)) = PyDict.keys (nodes c)
    /\ PyDict.keys (tasks (Loop.assign_each l c)) = PyDict.keys (tasks c)
    /\ resource_threshold (Loop.assign_each l c) = resource_threshold c).
  { unfold Loop.assign_each.
    induction l as [|t l IH]; intros c; simpl; [now repeat split|].
    destruct (IH (fst (_assign_nodes_to_task c (LearningTask.task_id t))))
      as (-> & -> & ->).
    destruct (assign_node_keys c (LearningTask.task_id t)) as [-> ->].
    now rewrite assign_task_keys. }
  unfold Loop.scan.
  destruct (raises Loop.ScanPending self); [now repeat split|].
  destruct (LoopFacts.assign_pending_prefix raises
              (filter (task_status_is "pending") (PyDict.values (tasks self))) self)
    as (done & todo & _ & Hfst & _).
  destruct (Loop.assign_pending raises _ self) as [c' [e|]]; simpl in Hfst; subst c'.
  - apply Heach.
  - destruct (raises Loop.Monitor _); apply Heach.
Qed.

(** X17: whatever raises, a turn of [run_continuous_learning] ends, and in
    the state it leaves no node has been registered or unregistered, no task
    added or removed, and the threshold is the same: the keys of both
    registries, in order, and the threshold are as before the turn. *)
Theorem turn_keeps_registries
        (raises : Loop.site -> SwarmCoordinator -> option Loop.exn)
        (self : SwarmCoordinator) :
  (exists c1, Leaf (c1, inr tt) (Loop.iteration raises self))
  /\ forall c1 r,
       Leaf (c1, r) (Loop.iteration raises self) ->
       PyDict.keys (nodes c1) = PyDict.keys (nodes self)
       /\ PyDict.keys (tasks c1) = PyDict.keys (tasks self)
       /\ resource_threshold c1 = resource_threshold self.
Proof.
  split.
  - exists (fst (Loop.scan raises self)). now apply iteration_leaf_scan.
  - intros c1 r H. apply iteration_leaf_scan in H. destruct H as [-> _].
    apply scan_keeps_registries.
Qed.

(** X18: admission and matching together.  In a reachable state, a stored
    task that requires field-wise no more than the threshold in force is
    assigned exactly when some registered node is idle: every registered
    node has the capacity for it. *)
Theorem task_within_threshold_needs_idle_node (self : SwarmCoordinator)
        (task_id : string) (task : LearningTask.t)
        (Hreach : reachable self)
        (Htask : PyDict.get (tasks self) task_id = Some task)
        (Hle : threshold_le (LearningTask.required_resources task)
                            (resource_threshold self)) :
  snd (_assign_nodes_to_task self task_id) = true
  <-> exists k n, In (k, n) (PyDict.items (nodes self)) /\ SwarmNode.status n = "idle".
Proof.
  destruct (reachable_consistent self Hreach) as [_ Hadm].
  split.
  - intros Hok.
    pose proof (_assign_nodes_to_task_outcome self task_id) as H.
    inversion H as [G Heq | tk G S Heq | tk k n rest G E Heq];
      rewrite <- Heq in Hok; try discriminate Hok.
    destruct (sort_head_best _ _ _ _ _ E) as [(Hin & Hidle & _) _].
    now exists k, n.
  - intros (k & n & Hin & Hidle).
    assert (Hc : candidate self task k n).
    { split; [exact Hin|]. split; [exact Hidle|].
      apply capacity_ge_monotone with (resource_threshold self); [|exact Hle].
      apply satisfies_capacity_ge. exact (Hadm k n Hin). }
    destruct (assign_success self task_id task Htask
                (ex_intro _ k (ex_intro _ n Hc)))
      as (k' & n' & rest' & _ & ->).
    reflexivity.
Qed.

Lemma task_within_threshold_needs_idle_node_witness :
  snd (_assign_nodes_to_task coordinator_light "task-3") = true.
Proof.
  apply (task_within_threshold_needs_idle_node coordinator_light "task-3" light_task
           (reachable_step _ (RegisterNode valid_node)
              (reachable_step _ (SubmitTask light_task)
                 (reachable_new ResourceThreshold.default)))
           eq_refl).
  - repeat split; simpl; try lia; unfold Qle; simpl; lia.
  - exists "node-1", valid_node. split; [now left | reflexivity].
Defined.
